(** * pyAeroTools: NACA four-digit airfoil generator

    A shallow embedding of [naca_four_digit_series]
    (src/pyAeroTools/aero/airfoil.py) and the properties of it that the
    specification states.

    Modelling conventions.

    - Python [int] is [Z]; Python [str] is [string] (ASCII only, so [len]
      is the number of characters).
    - Python [float] and numpy [float64] are idealised as the real numbers
      [R]: rounding, overflow, signed zeros and NaN are not modelled.  The
      one float behaviour that changes control flow, Python raising
      [ZeroDivisionError] on a division of two Python floats by zero, is
      modelled explicitly ([pydiv]).
    - A raised exception is the [Raise] case of [result]; statements are
      sequenced with a small error monad, in the order the source runs them.
    - numpy arrays and Python lists of floats are [list R]; element-wise
      array arithmetic is [map2].  [np.linspace], [np.arctan2] and
      [np.column_stack] are embedded from numpy's definition of them. *)

From Stdlib Require Import Reals Lra Lia ZArith List String Ascii Bool.
Import ListNotations.

Set Implicit Arguments.

(** ** Exceptions and the error monad *)

Inductive exception : Type :=
| AssertionError (msg : string)
| ValueError
| ZeroDivisionError.

Inductive result (A : Type) : Type :=
| Ok (a : A)
| Raise (e : exception).

Arguments Ok {A} a.
Arguments Raise {A} e.

Definition bind {A B : Type} (c : result A) (k : A -> result B) : result B :=
  match c with
  | Ok a => k a
  | Raise e => Raise e
  end.

Declare Scope py_scope.
Delimit Scope py_scope with py.
Notation "x <- c ;; k" := (bind c (fun x => k))
  (at level 61, c at next level, right associativity) : py_scope.
Notation "' p <- c ;; k" := (bind c (fun x => match x with p => k end))
  (at level 61, p pattern, c at next level, right associativity) : py_scope.

(** A Python [for] loop that appends one computed value per element and may
    raise on the way: the first exception aborts the loop. *)
Fixpoint mapM {A B : Type} (f : A -> result B) (l : list A) : result (list B) :=
  match l with
  | [] => Ok []
  | a :: l' =>
      (b <- f a ;;
       bs <- mapM f l' ;;
       Ok (b :: bs))%py
  end.

(** ** Strings and integers *)

Module PyStr.

Open Scope Z_scope.

(** The character of a decimal digit [0..9]. *)
Definition digit_char (d : Z) : ascii := ascii_of_nat (48 + Z.to_nat d).

Definition is_digit (c : ascii) : bool :=
  let n := nat_of_ascii c in ((48 <=? n) && (n <=? 57))%nat.

Definition digit_val (c : ascii) : Z := Z.of_nat (nat_of_ascii c - 48).

(** Decimal digits of a non-negative integer, most significant first. *)
Fixpoint digits_fuel (fuel : nat) (n : Z) : string :=
  match fuel with
  | O => EmptyString
  | S fuel' =>
      if n <? 10 then String (digit_char n) EmptyString
      else (digits_fuel fuel' (n / 10) ++ String (digit_char (n mod 10)) EmptyString)%string
  end.

Definition digits (n : Z) : string := digits_fuel (S (Z.to_nat (Z.log2 n))) n.

(** [str(n)] for a Python int: no padding, a leading minus sign when
    negative. *)
Definition str (n : Z) : string :=
  if n <? 0 then String "-"%char (digits (- n)) else digits n.

(** [len(s)] *)
Definition len (s : string) : Z := Z.of_nat (String.length s).

(** [s[i]] for [0 <= i < len(s)], as a one-character string; the generator
    indexes only after it has checked that the length is 4. *)
Definition index (s : string) (i : nat) : string := substring i 1 s.

(** [s[i:]] *)
Definition slice_from (s : string) (i : nat) : string :=
  substring i (String.length s - i) s.

(** Characters that [int()] strips from both ends of its argument. *)
Definition is_space (c : ascii) : bool :=
  let n := nat_of_ascii c in
  (((9 <=? n) && (n <=? 13)) || ((28 <=? n) && (n <=? 32)))%nat.

Fixpoint lstrip (s : string) : string :=
  match s with
  | EmptyString => EmptyString
  | String c s' => if is_space c then lstrip s' else s
  end.

Fixpoint rstrip (s : string) : string :=
  match s with
  | EmptyString => EmptyString
  | String c s' =>
      match rstrip s' with
      | EmptyString => if is_space c then EmptyString else String c EmptyString
      | r => String c r
      end
  end.

(** The digit part of an integer literal: decimal digits, with single
    underscores allowed between two digits.  [prev] tells whether the
    previous character was a digit. *)
Fixpoint int_digits (s : string) (acc : Z) (prev : bool) : option Z :=
  match s with
  | EmptyString => if prev then Some acc else None
  | String c s' =>
      if is_digit c then int_digits s' (10 * acc + digit_val c) true
      else if (Ascii.eqb c "_" && prev)%bool then int_digits s' acc false
      else None
  end.

(** [int(s)] for a string in base 10: surrounding whitespace is dropped,
    one sign is allowed, anything else raises [ValueError]. *)
Definition int (s : string) : result Z :=
  let body := rstrip (lstrip s) in
  let parsed :=
    match body with
    | String "+"%char r => int_digits r 0 false
    | String "-"%char r => option_map Z.opp (int_digits r 0 false)
    | _ => int_digits body 0 false
    end in
  match parsed with
  | Some z => Ok z
  | None => Raise ValueError
  end.

End PyStr.

(** ** The numpy functions the generator calls *)

Module Numpy.

Open Scope R_scope.

(** Element-wise arithmetic of two arrays of the same length. *)
Fixpoint map2 {A B C : Type} (f : A -> B -> C) (l1 : list A) (l2 : list B) : list C :=
  match l1, l2 with
  | a :: l1', b :: l2' => f a b :: map2 f l1' l2'
  | _, _ => []
  end.

(** [y[-1] = v] on a non-empty array. *)
Fixpoint set_last {A : Type} (l : list A) (v : A) : list A :=
  match l with
  | [] => []
  | [_] => [v]
  | a :: l' => a :: set_last l' v
  end.

(** [np.arange(0, num)] as floats. *)
Definition arange (num : Z) : list R :=
  map (fun i => INR i) (seq 0 (Z.to_nat num)).

(** [np.linspace(start, stop, num=num)] with [endpoint=True]: a negative
    [num] raises [ValueError]; otherwise [arange(0, num) * step + start]
    with [step = (stop - start) / (num - 1)], and for [num > 1] the last
    sample is overwritten with [stop]. *)
Definition linspace (start stop : R) (num : Z) : result (list R) :=
  if (num <? 0)%Z then Raise ValueError
  else
    let div := (num - 1)%Z in
    let delta := stop - start in
    let y := arange num in
    let y :=
      if (0 <? div)%Z then map (fun a => a * (delta / IZR div)) y
      else map (fun a => a * delta) y in
    let y := map (fun a => a + start) y in
    Ok (if (1 <? num)%Z then set_last y stop else y).

(** [np.arctan2(y, x)]: the angle of the point [(x, y)]. *)
Definition arctan2 (y x : R) : R :=
  if Rlt_dec 0 x then atan (y / x)
  else if Rlt_dec x 0 then
    if Rle_dec 0 y then atan (y / x) + PI else atan (y / x) - PI
  else if Rlt_dec 0 y then PI / 2
  else if Rlt_dec y 0 then - (PI / 2)
  else 0.

(** One row of the array built by [np.column_stack] from four columns. *)
Record row : Type := Row {
  x_upper : R;
  y_upper : R;
  x_lower : R;
  y_lower : R
}.

Fixpoint column_stack (c1 c2 c3 c4 : list R) : list row :=
  match c1, c2, c3, c4 with
  | a :: c1', b :: c2', c :: c3', d :: c4' => Row a b c d :: column_stack c1' c2' c3' c4'
  | _, _, _, _ => []
  end.

End Numpy.

(** ** The generator *)

Module Airfoil.

Import PyStr Numpy.
Open Scope R_scope.
Open Scope py_scope.

(** The argument [naca_number] is an [int] or a [str]. *)
Inductive designation : Type :=
| IntNumber (n : Z)
| StrNumber (s : string).

(** Division of two Python floats. *)
Definition pydiv (a b : R) : result R :=
  if Req_dec_T b 0 then Raise ZeroDivisionError else Ok (a / b).

(** Lines 24-25: an [int] is replaced by its decimal string. *)
Definition normalize (naca_number : designation) : string :=
  match naca_number with
  | IntNumber n => str n
  | StrNumber s => s
  end.

(** Line 26: the message of the assertion. *)
Definition msg (naca_number : string) : string :=
  ("ERROR: Input naca number must be 4 digits. " ++ str (len naca_number)
     ++ " digits given.")%string.

(** Lines 24-27: the input check. *)
Definition check_input (naca_number : designation) : result string :=
  let naca_number := normalize naca_number in
  if (len naca_number =? 4)%Z then Ok naca_number
  else Raise (AssertionError (msg naca_number)).

(** Lines 32-34: maximum camber [m], its position [p] and the maximum
    thickness [t], each multiplied by the chord. *)
Definition naca_params (naca_number : string) (chord : R) : result (R * R * R) :=
  d1 <- int (index naca_number 0) ;;
  let m := IZR d1 / 100 * chord in
  d2 <- int (index naca_number 1) ;;
  let p := IZR d2 / 10 * chord in
  d34 <- int (slice_from naca_number 2) ;;
  let t := IZR d34 / 100 * chord in
  Ok (m, p, t).

(** Lines 42-45: the body of the mean camber line loop. *)
Definition yc_temp (m p x_station : R) : result R :=
  if Rlt_dec x_station p then
    q <- pydiv m (p ^ 2) ;;
    Ok (q * (2 * p * x_station - x_station ^ 2))
  else
    q <- pydiv m ((1 - p) ^ 2) ;;
    Ok (q * ((1 - 2 * p) + 2 * p * x_station - x_station ^ 2)).

(** Line 49: the thickness distribution at one station.  ([np.sqrt] of a
    negative station is nan, which [R] does not have; no statement below
    looks at the thickness of a negative station.) *)
Definition yt_at (t x : R) : R :=
  t / 0.2 * (0.2969 * sqrt x - 0.1260 * x - 0.3516 * x ^ 2
             + 0.2843 * x ^ 3 - 0.1015 * x ^ 4).

(** Lines 54-57: the body of the camber slope loop. *)
Definition dyc_dx_temp (m p x_station : R) : result R :=
  if Rlt_dec x_station p then
    q <- pydiv m (p ^ 2) ;;
    Ok (q * (2 * p - 2 * x_station))
  else
    q <- pydiv m ((1 - p) ^ 2) ;;
    Ok (q * (2 * p - 2 * x_station)).

(** Lines 61-66: the four columns and their assembly. *)
Definition surfaces (x_stations yc yt dyc_dx : list R) : list row :=
  let theta := map (fun d => arctan2 d 1) dyc_dx in
  let x_upper := map2 Rminus x_stations (map2 Rmult yt (map sin theta)) in
  let y_upper := map2 Rplus yc (map2 Rmult yt (map cos theta)) in
  let x_lower := map2 Rplus x_stations (map2 Rmult yt (map sin theta)) in
  let y_lower := map2 Rminus yc (map2 Rmult yt (map cos theta)) in
  column_stack x_upper y_upper x_lower y_lower.

(** Lines 37-67: everything after the parameters are known. *)
Definition coordinates (m p t chord : R) (num_points : Z) : result (list row) :=
  x_stations <- linspace 0 chord num_points ;;
  yc <- mapM (yc_temp m p) x_stations ;;
  let yt := map (yt_at t) x_stations in
  dyc_dx <- mapM (dyc_dx_temp m p) x_stations ;;
  Ok (surfaces x_stations yc yt dyc_dx).

Definition naca_four_digit_series
    (naca_number : designation) (chord : R) (num_points : Z) : result (list row) :=
  naca_number <- check_input naca_number ;;
  '(m, p, t) <- naca_params naca_number chord ;;
  coordinates m p t chord num_points.

(** Lines 24-34 alone: the check followed by the parameters. *)
Definition designation_params (naca_number : designation) (chord : R)
    : result (R * R * R) :=
  naca_number <- check_input naca_number ;;
  naca_params naca_number chord.

(** *** Vocabulary of the specification *)

(** The string made of four decimal digits. *)
Definition four_digits (d1 d2 d3 d4 : Z) : string :=
  String (digit_char d1) (String (digit_char d2)
    (String (digit_char d3) (String (digit_char d4) EmptyString))).

Definition is_digit_value (d : Z) : Prop := (0 <= d <= 9)%Z.

(** The value of the camber ordinate and of the camber slope at a station
    where the loop body does not raise. *)
Definition yc_value (m p x : R) : R :=
  if Rlt_dec x p then m / p ^ 2 * (2 * p * x - x ^ 2)
  else m / (1 - p) ^ 2 * ((1 - 2 * p) + 2 * p * x - x ^ 2).

Definition dyc_dx_value (m p x : R) : R :=
  if Rlt_dec x p then m / p ^ 2 * (2 * p - 2 * x)
  else m / (1 - p) ^ 2 * (2 * p - 2 * x).

(** The divisor used at station [x] is not zero. *)
Definition divisor_nonzero (p x : R) : Prop :=
  (x < p -> p <> 0) /\ (~ x < p -> p <> 1).

(** The output row of one station. *)
Definition station_row (m p t x : R) : row :=
  let yc := yc_value m p x in
  let yt := yt_at t x in
  let theta := arctan2 (dyc_dx_value m p x) 1 in
  Row (x - yt * sin theta) (yc + yt * cos theta)
      (x + yt * sin theta) (yc - yt * cos theta).

(** The stations of [np.linspace(0., chord, num)] for [num >= 2]. *)
Definition stations (chord : R) (num : Z) : list R :=
  map (fun i => INR i * (chord / IZR (num - 1))) (seq 0 (Z.to_nat num)).

(** Mirror symmetry of a row about the chord line. *)
Definition mirror_symmetric (r : row) : Prop :=
  y_upper r = - y_lower r /\ x_upper r = x_lower r.

(** Every coordinate of a row multiplied by [k]. *)
Definition scale_row (k : R) (r : row) : row :=
  Row (k * x_upper r) (k * y_upper r) (k * x_lower r) (k * y_lower r).

End Airfoil.

(** * Properties *)

(** ** Concrete runs of the string functions *)

Example str_examples :
  PyStr.str 12 = "12"%string /\ PyStr.str 0 = "0"%string
  /\ PyStr.str 2317 = "2317"%string /\ PyStr.str (-123) = "-123"%string
  /\ PyStr.str 10000 = "10000"%string.
Proof. repeat split; reflexivity. Qed.

Example int_examples :
  PyStr.int "7" = Ok 7%Z /\ PyStr.int "17" = Ok 17%Z /\ PyStr.int " 3" = Ok 3%Z
  /\ PyStr.int "-4" = Ok (-4)%Z /\ PyStr.int "-" = Raise ValueError
  /\ PyStr.int "a" = Raise ValueError /\ PyStr.int "1_" = Raise ValueError
  /\ PyStr.int "" = Raise ValueError.
Proof. repeat split; reflexivity. Qed.

Example check_input_examples :
  Airfoil.check_input (Airfoil.StrNumber "2317") = Ok "2317"%string
  /\ Airfoil.check_input (Airfoil.IntNumber 2317) = Ok "2317"%string
  /\ Airfoil.check_input (Airfoil.IntNumber 12) =
       Raise (AssertionError
                "ERROR: Input naca number must be 4 digits. 2 digits given.").
Proof. repeat split; reflexivity. Qed.

(** ** The error monad *)

Section MapM.

Context {A B : Type}.
Variable f : A -> result B.

Lemma mapM_pure (g : A -> B) (l : list A) :
  (forall a, In a l -> f a = Ok (g a)) -> mapM f l = Ok (map g l).
Proof.
  induction l as [|a l IH]; intros H; simpl; [reflexivity|].
  rewrite (H a (or_introl eq_refl)). simpl.
  rewrite IH by (intros b Hb; apply H; right; exact Hb).
  reflexivity.
Qed.

Lemma mapM_ok_inv (g : A -> B) (l : list A) (bs : list B) :
  (forall a b, f a = Ok b -> b = g a) -> mapM f l = Ok bs -> bs = map g l.
Proof.
  intros Hg. revert bs.
  induction l as [|a l IH]; intros bs H; simpl in H.
  - injection H as <-. reflexivity.
  - destruct (f a) as [b|e] eqn:Ea; simpl in H; [|discriminate].
    destruct (mapM f l) as [bs'|e] eqn:El; simpl in H; [|discriminate].
    injection H as <-. simpl.
    rewrite (Hg a b Ea), (IH bs' eq_refl). reflexivity.
Qed.

Lemma mapM_ok_all (l : list A) (bs : list B) :
  mapM f l = Ok bs -> forall a, In a l -> exists b, f a = Ok b.
Proof.
  revert bs.
  induction l as [|a l IH]; intros bs H x Hx; [destruct Hx|].
  simpl in H.
  destruct (f a) as [b|e] eqn:Ea; simpl in H; [|discriminate].
  destruct (mapM f l) as [bs'|e] eqn:El; simpl in H; [|discriminate].
  destruct Hx as [<-|Hx]; [exists b; exact Ea|].
  exact (IH bs' eq_refl x Hx).
Qed.

Lemma mapM_raise_inv (l : list A) (e : exception) :
  mapM f l = Raise e -> exists a, In a l /\ f a = Raise e.
Proof.
  induction l as [|a l IH]; intros H; simpl in H; [discriminate|].
  destruct (f a) as [b|e'] eqn:Ea; simpl in H.
  - destruct (mapM f l) as [bs'|e''] eqn:El; simpl in H; [discriminate|].
    injection H as ->.
    destruct (IH eq_refl) as (x & Hx & Hfx).
    exists x. split; [right; exact Hx | exact Hfx].
  - injection H as ->. exists a. split; [left; reflexivity | exact Ea].
Qed.

End MapM.

(** ** Decimal strings *)

Section Decimal.

Import PyStr.
Open Scope Z_scope.

Lemma digit_cases (d : Z) :
  0 <= d <= 9 ->
  d = 0 \/ d = 1 \/ d = 2 \/ d = 3 \/ d = 4 \/ d = 5 \/ d = 6 \/ d = 7 \/ d = 8 \/ d = 9.
Proof. lia. Qed.

Ltac each_digit H :=
  apply digit_cases in H;
  repeat (destruct H as [H|H]); subst.

Lemma int_one_digit (d : Z) :
  0 <= d <= 9 -> int (String (digit_char d) EmptyString) = Ok d.
Proof. intros H. each_digit H; reflexivity. Qed.

Lemma int_two_digits (a b : Z) :
  0 <= a <= 9 -> 0 <= b <= 9 ->
  int (String (digit_char a) (String (digit_char b) EmptyString)) = Ok (10 * a + b).
Proof. intros Ha Hb. each_digit Ha; each_digit Hb; reflexivity. Qed.

Lemma digits_fuel_irrel (f1 f2 : nat) (n : Z) :
  0 <= n -> n < 2 ^ Z.of_nat (S f1) -> n < 2 ^ Z.of_nat (S f2) ->
  digits_fuel (S f1) n = digits_fuel (S f2) n.
Proof.
  revert f2 n.
  induction f1 as [|f1 IH]; intros f2 n H0 H1 H2.
  - change (2 ^ Z.of_nat 1) with 2 in H1.
    simpl. destruct (Z.ltb_spec n 10); [reflexivity | lia].
  - cbn [digits_fuel].
    destruct (Z.ltb_spec n 10) as [Hlt|Hge]; [reflexivity|].
    destruct f2 as [|f2].
    + change (2 ^ Z.of_nat 1) with 2 in H2. lia.
    + f_equal.
      rewrite Nat2Z.inj_succ, Z.pow_succ_r in H1, H2 by lia.
      apply IH.
      * apply Z.div_pos; lia.
      * apply Z.div_lt_upper_bound; lia.
      * apply Z.div_lt_upper_bound; lia.
Qed.

Lemma digits_fuel_enough (n : Z) :
  0 <= n -> n < 2 ^ Z.of_nat (S (Z.to_nat (Z.log2 n))).
Proof.
  intros H.
  rewrite Nat2Z.inj_succ, Z2Nat.id by apply Z.log2_nonneg.
  destruct (Z.eq_dec n 0) as [->|Hn]; [reflexivity|].
  apply Z.log2_spec. lia.
Qed.

Lemma digits_unfold (n : Z) :
  0 <= n ->
  digits n =
    if n <? 10 then String (digit_char n) EmptyString
    else (digits (n / 10) ++ String (digit_char (n mod 10)) EmptyString)%string.
Proof.
  intros H. unfold digits at 1. cbn [digits_fuel].
  destruct (Z.ltb_spec n 10) as [Hlt|Hge]; [reflexivity|].
  f_equal.
  pose proof (digits_fuel_enough H) as Hn.
  assert (Hq : 0 <= n / 10) by (apply Z.div_pos; lia).
  pose proof (digits_fuel_enough Hq) as Hq'.
  assert (Hlog : 0 < Z.log2 n) by (apply Z.log2_pos; lia).
  destruct (Z.to_nat (Z.log2 n)) as [|k] eqn:Ek; [lia|].
  unfold digits. apply digits_fuel_irrel; [exact Hq | | exact Hq'].
  rewrite Nat2Z.inj_succ, Z.pow_succ_r in Hn by lia.
  apply Z.div_lt_upper_bound; lia.
Qed.

Lemma length_snoc (s : string) (c : ascii) :
  String.length (s ++ String c EmptyString) = S (String.length s).
Proof. induction s as [|a s IH]; simpl; [reflexivity | rewrite IH; reflexivity]. Qed.

Lemma digits_length_upper (k : nat) (n : Z) :
  0 <= n < 10 ^ Z.of_nat (S k) -> (String.length (digits n) <= S k)%nat.
Proof.
  revert n. induction k as [|k IH]; intros n H; rewrite digits_unfold by lia.
  - change (10 ^ Z.of_nat 1) with 10 in H.
    destruct (Z.ltb_spec n 10); [simpl; lia | lia].
  - destruct (Z.ltb_spec n 10) as [Hlt|Hge]; [simpl; lia|].
    rewrite length_snoc. apply le_n_S, IH.
    rewrite Nat2Z.inj_succ, Z.pow_succ_r in H by lia.
    split; [apply Z.div_pos; lia | apply Z.div_lt_upper_bound; lia].
Qed.

Lemma digits_length_lower (k : nat) (n : Z) :
  10 ^ Z.of_nat k <= n -> (S k <= String.length (digits n))%nat.
Proof.
  revert n. induction k as [|k IH]; intros n H.
  - change (10 ^ Z.of_nat 0) with 1 in H.
    rewrite digits_unfold by lia.
    destruct (n <? 10); [simpl; lia | rewrite length_snoc; lia].
  - rewrite Nat2Z.inj_succ, Z.pow_succ_r in H by lia.
    assert (0 < 10 ^ Z.of_nat k) by (apply Z.pow_pos_nonneg; lia).
    rewrite digits_unfold by lia.
    destruct (Z.ltb_spec n 10) as [Hlt|Hge]; [lia|].
    rewrite length_snoc. apply le_n_S, IH.
    apply Z.div_le_lower_bound; lia.
Qed.

End Decimal.

Section DecimalStr.

Import PyStr.
Open Scope Z_scope.

Lemma str_nonneg (n : Z) : 0 <= n -> str n = digits n.
Proof. intros H. unfold str. destruct (Z.ltb_spec n 0); [lia | reflexivity]. Qed.

Lemma str_negative (n : Z) : n < 0 -> str n = String "-"%char (digits (- n)).
Proof. intros H. unfold str. destruct (Z.ltb_spec n 0); [reflexivity | lia]. Qed.

Lemma len_str_small (n : Z) : 0 <= n <= 999 -> 1 <= len (str n) <= 3.
Proof.
  intros H. rewrite str_nonneg by lia. unfold len.
  pose proof (@digits_length_upper 2 n) as Hu.
  pose proof (@digits_length_lower 0 n) as Hl.
  change (10 ^ Z.of_nat 3) with 1000 in Hu.
  change (10 ^ Z.of_nat 0) with 1 in Hl.
  destruct (Z.eq_dec n 0) as [->|Hn]; [simpl; lia|].
  specialize (Hu ltac:(lia)). specialize (Hl ltac:(lia)). lia.
Qed.

Lemma len_str_four (n : Z) :
  len (str n) = 4 <-> 1000 <= n <= 9999 \/ -999 <= n <= -100.
Proof.
  unfold len.
  pose proof (@digits_length_upper 2) as U3. change (10 ^ Z.of_nat 3) with 1000 in U3.
  pose proof (@digits_length_upper 3) as U4. change (10 ^ Z.of_nat 4) with 10000 in U4.
  pose proof (@digits_length_lower 3) as L4. change (10 ^ Z.of_nat 3) with 1000 in L4.
  pose proof (@digits_length_lower 4) as L5. change (10 ^ Z.of_nat 4) with 10000 in L5.
  pose proof (@digits_length_upper 1) as U2. change (10 ^ Z.of_nat 2) with 100 in U2.
  pose proof (@digits_length_lower 2) as L3. change (10 ^ Z.of_nat 2) with 100 in L3.
  destruct (Z.lt_ge_cases n 0) as [Hneg|Hpos].
  - rewrite str_negative by lia. cbn [String.length].
    split.
    + intros H. right.
      destruct (Z.lt_ge_cases (- n) 100) as [Hs|Hs].
      { specialize (U2 (- n) ltac:(lia)). lia. }
      destruct (Z.lt_ge_cases (- n) 1000) as [Hb|Hb]; [lia|].
      specialize (L4 (- n) ltac:(lia)). lia.
    + intros [H|H]; [lia|].
      specialize (U3 (- n) ltac:(lia)). specialize (L3 (- n) ltac:(lia)). lia.
  - rewrite str_nonneg by lia.
    split.
    + intros H. left.
      destruct (Z.lt_ge_cases n 1000) as [Hs|Hs].
      { specialize (U3 n ltac:(lia)). lia. }
      destruct (Z.lt_ge_cases n 10000) as [Hb|Hb]; [lia|].
      specialize (L5 n ltac:(lia)). lia.
    + intros [H|H]; [|lia].
      specialize (U4 n ltac:(lia)). specialize (L4 n ltac:(lia)). lia.
Qed.

Lemma str_four_digits (n : Z) :
  1000 <= n <= 9999 ->
  str n = Airfoil.four_digits (n / 1000) (n / 100 mod 10) (n / 10 mod 10) (n mod 10).
Proof.
  intros H. rewrite str_nonneg by lia.
  assert (H1 : 100 <= n / 10 <= 999)
    by (split; [apply Z.div_le_lower_bound | apply Z.lt_succ_r, Z.div_lt_upper_bound]; lia).
  assert (H2 : 10 <= n / 10 / 10 <= 99)
    by (split; [apply Z.div_le_lower_bound | apply Z.lt_succ_r, Z.div_lt_upper_bound]; lia).
  assert (H3 : 1 <= n / 10 / 10 / 10 <= 9)
    by (split; [apply Z.div_le_lower_bound | apply Z.lt_succ_r, Z.div_lt_upper_bound]; lia).
  rewrite (@digits_unfold n) by lia.
  destruct (Z.ltb_spec n 10); [lia|].
  rewrite (@digits_unfold (n / 10)) by lia.
  destruct (Z.ltb_spec (n / 10) 10); [lia|].
  rewrite (@digits_unfold (n / 10 / 10)) by lia.
  destruct (Z.ltb_spec (n / 10 / 10) 10); [lia|].
  rewrite (@digits_unfold (n / 10 / 10 / 10)) by lia.
  destruct (Z.ltb_spec (n / 10 / 10 / 10) 10); [|lia].
  rewrite !Z.div_div by lia.
  reflexivity.
Qed.

End DecimalStr.

(** ** Input check and parameters *)

Section Parsing.

Import PyStr Numpy Airfoil.
Open Scope R_scope.

Lemma check_input_ok (d : designation) :
  len (normalize d) = 4%Z -> check_input d = Ok (normalize d).
Proof. intros H. unfold check_input. rewrite H. reflexivity. Qed.

Lemma check_input_raise (d : designation) :
  len (normalize d) <> 4%Z ->
  check_input d = Raise (AssertionError (msg (normalize d))).
Proof.
  intros H. unfold check_input.
  destruct (Z.eqb_spec (len (normalize d)) 4); [contradiction | reflexivity].
Qed.

Lemma naca_params_four_digits (d1 d2 d3 d4 : Z) (chord : R) :
  is_digit_value d1 -> is_digit_value d2 -> is_digit_value d3 -> is_digit_value d4 ->
  naca_params (four_digits d1 d2 d3 d4) chord =
    Ok (IZR d1 / 100 * chord, IZR d2 / 10 * chord, IZR (10 * d3 + d4) / 100 * chord).
Proof.
  intros H1 H2 H3 H4. unfold naca_params, four_digits.
  change (index (String ?a (String ?b ?r)) 0) with (String a EmptyString).
  change (index (String ?a (String ?b (String ?c ?r))) 1) with (String b EmptyString).
  change (slice_from (String ?a (String ?b (String ?c (String ?d EmptyString)))) 2)
    with (String c (String d EmptyString)).
  rewrite (int_one_digit H1), (int_one_digit H2), (int_two_digits H3 H4).
  reflexivity.
Qed.

Lemma series_four_digits (d1 d2 d3 d4 : Z) (chord : R) (num_points : Z) :
  is_digit_value d1 -> is_digit_value d2 -> is_digit_value d3 -> is_digit_value d4 ->
  naca_four_digit_series (StrNumber (four_digits d1 d2 d3 d4)) chord num_points =
    coordinates (IZR d1 / 100 * chord) (IZR d2 / 10 * chord)
                (IZR (10 * d3 + d4) / 100 * chord) chord num_points.
Proof.
  intros H1 H2 H3 H4. unfold naca_four_digit_series.
  rewrite check_input_ok by reflexivity. cbn [bind normalize].
  rewrite naca_params_four_digits by assumption. reflexivity.
Qed.

End Parsing.

(** ** Camber line *)

Section Camber.

Import Airfoil.
Open Scope R_scope.

Lemma sq_zero_iff (a : R) : a ^ 2 = 0 <-> a = 0.
Proof.
  split; [|intros ->; ring].
  intros H. destruct (Req_dec_T a 0) as [E|N]; [exact E|].
  exfalso. exact (pow_nonzero a 2 N H).
Qed.

Lemma pydiv_ok (a b : R) : b <> 0 -> pydiv a b = Ok (a / b).
Proof. intros H. unfold pydiv. destruct (Req_dec_T b 0); [contradiction | reflexivity]. Qed.

Lemma pydiv_zero (a : R) : pydiv a 0 = Raise ZeroDivisionError.
Proof. unfold pydiv. destruct (Req_dec_T 0 0) as [_|N]; [reflexivity | contradiction N; reflexivity]. Qed.

Lemma yc_temp_ok (m p x : R) :
  divisor_nonzero p x -> yc_temp m p x = Ok (yc_value m p x).
Proof.
  intros [Hf Ha]. unfold yc_temp, yc_value.
  destruct (Rlt_dec x p) as [L|L].
  - rewrite pydiv_ok; [reflexivity|]. intros E. apply (proj1 (sq_zero_iff _)) in E. exact (Hf L E).
  - rewrite pydiv_ok; [reflexivity|]. intros E. apply (proj1 (sq_zero_iff _)) in E. apply (Ha L). lra.
Qed.

Lemma dyc_dx_temp_ok (m p x : R) :
  divisor_nonzero p x -> dyc_dx_temp m p x = Ok (dyc_dx_value m p x).
Proof.
  intros [Hf Ha]. unfold dyc_dx_temp, dyc_dx_value.
  destruct (Rlt_dec x p) as [L|L].
  - rewrite pydiv_ok; [reflexivity|]. intros E. apply (proj1 (sq_zero_iff _)) in E. exact (Hf L E).
  - rewrite pydiv_ok; [reflexivity|]. intros E. apply (proj1 (sq_zero_iff _)) in E. apply (Ha L). lra.
Qed.

Lemma divisor_nonzero_dec (p x : R) : {divisor_nonzero p x} + {~ divisor_nonzero p x}.
Proof.
  unfold divisor_nonzero.
  destruct (Rlt_dec x p) as [L|L].
  - destruct (Req_dec_T p 0) as [E|N].
    + right. intros [H _]. exact (H L E).
    + left. split; [intros _; exact N | intros C; contradiction].
  - destruct (Req_dec_T p 1) as [E|N].
    + right. intros [_ H]. exact (H L E).
    + left. split; [intros C; contradiction | intros _; exact N].
Qed.

Lemma yc_temp_undefined (m p x : R) :
  ~ divisor_nonzero p x -> yc_temp m p x = Raise ZeroDivisionError.
Proof.
  intros H. unfold yc_temp, divisor_nonzero in *.
  destruct (Rlt_dec x p) as [L|L].
  - destruct (Req_dec_T p 0) as [->|N].
    + replace (0 ^ 2) with 0 by ring. rewrite pydiv_zero. reflexivity.
    + exfalso. apply H. split; [intros _; exact N | intros C; contradiction].
  - destruct (Req_dec_T p 1) as [->|N].
    + replace ((1 - 1) ^ 2) with 0 by ring. rewrite pydiv_zero. reflexivity.
    + exfalso. apply H. split; [intros C; contradiction | intros _; exact N].
Qed.

Lemma yc_temp_inv (m p x y : R) :
  yc_temp m p x = Ok y -> y = yc_value m p x /\ divisor_nonzero p x.
Proof.
  intros H. destruct (divisor_nonzero_dec p x) as [D|D].
  - rewrite (yc_temp_ok m D) in H. injection H as <-. split; [reflexivity | exact D].
  - rewrite (yc_temp_undefined m D) in H. discriminate.
Qed.

Lemma yc_temp_raise (m p x : R) (e : exception) :
  yc_temp m p x = Raise e -> e = ZeroDivisionError.
Proof.
  intros H. destruct (divisor_nonzero_dec p x) as [D|D].
  - rewrite (yc_temp_ok m D) in H. discriminate.
  - rewrite (yc_temp_undefined m D) in H. injection H as <-. reflexivity.
Qed.

Lemma dyc_dx_temp_inv (m p x y : R) :
  dyc_dx_temp m p x = Ok y -> y = dyc_dx_value m p x.
Proof.
  unfold dyc_dx_temp, dyc_dx_value, pydiv. intros H.
  destruct (Rlt_dec x p); destruct (Req_dec_T _ 0); simpl in H;
    try discriminate; injection H as <-; reflexivity.
Qed.

Lemma dyc_dx_temp_raise (m p x : R) (e : exception) :
  dyc_dx_temp m p x = Raise e -> e = ZeroDivisionError.
Proof.
  unfold dyc_dx_temp, pydiv. intros H.
  destruct (Rlt_dec x p); destruct (Req_dec_T _ 0); simpl in H;
    try discriminate; injection H as <-; reflexivity.
Qed.

End Camber.

(** ** Stations *)

Section Stations.

Import Numpy Airfoil.
Open Scope R_scope.

Lemma set_last_snoc {A : Type} (l : list A) (a v : A) :
  set_last (l ++ [a]) v = l ++ [v].
Proof.
  induction l as [|b l IH]; [reflexivity|].
  simpl. rewrite IH.
  destruct (l ++ [a]) eqn:E; [destruct l; discriminate | reflexivity].
Qed.

Lemma linspace_negative (start stop : R) (num : Z) :
  (num < 0)%Z -> linspace start stop num = Raise ValueError.
Proof. intros H. unfold linspace. destruct (Z.ltb_spec num 0); [reflexivity | lia]. Qed.

Lemma linspace_empty (chord : R) : linspace 0 chord 0 = Ok [].
Proof. reflexivity. Qed.

Lemma linspace_single (chord : R) : linspace 0 chord 1 = Ok [0].
Proof.
  unfold linspace, arange. simpl.
  replace (0 * (chord - 0) + 0) with 0 by ring. reflexivity.
Qed.

Lemma linspace_stations (chord : R) (num : Z) :
  (2 <= num)%Z -> linspace 0 chord num = Ok (stations chord num).
Proof.
  intros H. unfold linspace, stations, arange.
  destruct (Z.ltb_spec num 0); [lia|].
  destruct (Z.ltb_spec 0 (num - 1)); [|lia].
  destruct (Z.ltb_spec 1 num); [|lia].
  f_equal.
  destruct (Z.to_nat num) as [|k] eqn:Ek; [lia|].
  assert (Hk : IZR (num - 1) = INR k).
  { rewrite INR_IZR_INZ. f_equal. lia. }
  assert (Hk0 : INR k <> 0).
  { apply not_0_INR. lia. }
  rewrite Hk, seq_S, !map_app. cbn [map Nat.add].
  rewrite set_last_snoc, !map_map. f_equal.
  - apply map_ext. intros i. unfold Rdiv. ring.
  - f_equal. field. exact Hk0.
Qed.

Lemma stations_length (chord : R) (num : Z) :
  List.length (stations chord num) = Z.to_nat num.
Proof. unfold stations. rewrite length_map, length_seq. reflexivity. Qed.

Lemma stations_nth (chord : R) (num : Z) (i : nat) :
  (i < Z.to_nat num)%nat ->
  nth_error (stations chord num) i = Some (INR i * (chord / IZR (num - 1))).
Proof.
  intros H. unfold stations.
  rewrite nth_error_map, nth_error_seq.
  destruct (Nat.ltb_spec i (Z.to_nat num)); [reflexivity | lia].
Qed.

Lemma stations_in (chord : R) (num : Z) (x : R) :
  In x (stations chord num) ->
  exists i, (i < Z.to_nat num)%nat /\ x = INR i * (chord / IZR (num - 1)).
Proof.
  unfold stations. intros H. apply in_map_iff in H as (i & <- & Hi).
  apply in_seq in Hi. exists i. split; [lia | reflexivity].
Qed.

Lemma stations_range (chord : R) (num : Z) (x : R) :
  (2 <= num)%Z -> 0 <= chord -> In x (stations chord num) -> 0 <= x <= chord.
Proof.
  intros Hn Hc Hx. apply stations_in in Hx as (i & Hi & ->).
  assert (Hd : 0 < IZR (num - 1)) by (apply IZR_lt; lia).
  assert (Hi' : INR i <= IZR (num - 1)).
  { rewrite INR_IZR_INZ. apply IZR_le. lia. }
  pose proof (pos_INR i) as Hi0.
  assert (Hs : 0 <= chord / IZR (num - 1)).
  { apply Rmult_le_pos; [exact Hc | left; apply Rinv_0_lt_compat; exact Hd]. }
  split.
  - apply Rmult_le_pos; assumption.
  - replace chord with (IZR (num - 1) * (chord / IZR (num - 1))) at 2
      by (field; lra).
    apply Rmult_le_compat_r; assumption.
Qed.

End Stations.

(** ** Assembly of the rows *)

Section Coordinates.

Import Numpy Airfoil.
Open Scope R_scope.

Variables m p t chord : R.
Variable num_points : Z.

Lemma surfaces_map (xs : list R) :
  surfaces xs (map (yc_value m p) xs) (map (yt_at t) xs) (map (dyc_dx_value m p) xs)
  = map (station_row m p t) xs.
Proof.
  unfold surfaces.
  induction xs as [|x xs IH]; [reflexivity|].
  cbn [map map2 column_stack]. rewrite IH. reflexivity.
Qed.

Lemma coordinates_ok (xs : list R) :
  linspace 0 chord num_points = Ok xs ->
  (forall x, In x xs -> divisor_nonzero p x) ->
  coordinates m p t chord num_points = Ok (map (station_row m p t) xs).
Proof.
  intros Hl Hd. unfold coordinates. rewrite Hl. cbn [bind].
  rewrite (mapM_pure (yc_temp m p) (yc_value m p))
    by (intros x Hx; apply yc_temp_ok, Hd, Hx).
  cbn [bind].
  rewrite (mapM_pure (dyc_dx_temp m p) (dyc_dx_value m p))
    by (intros x Hx; apply dyc_dx_temp_ok, Hd, Hx).
  cbn [bind]. rewrite surfaces_map. reflexivity.
Qed.

Lemma coordinates_inv (out : list row) :
  coordinates m p t chord num_points = Ok out ->
  exists xs,
    linspace 0 chord num_points = Ok xs
    /\ (forall x, In x xs -> divisor_nonzero p x)
    /\ out = map (station_row m p t) xs.
Proof.
  unfold coordinates. intros H.
  destruct (linspace 0 chord num_points) as [xs|e]; [|discriminate].
  cbn [bind] in H.
  destruct (mapM (yc_temp m p) xs) as [yc|e] eqn:Eyc; [|discriminate].
  cbn [bind] in H.
  destruct (mapM (dyc_dx_temp m p) xs) as [dy|e] eqn:Edy; [|discriminate].
  cbn [bind] in H. injection H as <-.
  exists xs. split; [reflexivity|]. split.
  - intros x Hx. destruct (mapM_ok_all _ _ Eyc x Hx) as [y Hy].
    apply yc_temp_inv in Hy. apply Hy.
  - rewrite (mapM_ok_inv _ (yc_value m p) _ (fun a b H => proj1 (yc_temp_inv _ _ _ H)) Eyc).
    rewrite (mapM_ok_inv _ (dyc_dx_value m p) _ (fun a b H => dyc_dx_temp_inv _ _ _ H) Edy).
    apply surfaces_map.
Qed.

Lemma coordinates_zero_division (xs : list R) (x : R) :
  linspace 0 chord num_points = Ok xs ->
  In x xs -> ~ divisor_nonzero p x ->
  coordinates m p t chord num_points = Raise ZeroDivisionError.
Proof.
  intros Hl Hx Hd. unfold coordinates. rewrite Hl. cbn [bind].
  destruct (mapM (yc_temp m p) xs) as [yc|e] eqn:Eyc.
  - destruct (mapM_ok_all _ _ Eyc x Hx) as [y Hy].
    apply yc_temp_inv in Hy. destruct Hy as [_ Hy]. contradiction.
  - apply mapM_raise_inv in Eyc as (a & _ & Ha).
    apply yc_temp_raise in Ha. subst e. reflexivity.
Qed.

Lemma coordinates_raise_inv (e : exception) :
  coordinates m p t chord num_points = Raise e ->
  (e = ValueError /\ (num_points < 0)%Z)
  \/ (e = ZeroDivisionError /\ (0 <= num_points)%Z).
Proof.
  unfold coordinates, linspace. intros H.
  destruct (Z.ltb_spec num_points 0) as [Hn|Hn].
  - cbn [bind] in H. injection H as <-. left. split; [reflexivity | exact Hn].
  - right. split; [|exact Hn]. cbn [bind] in H.
    match type of H with
    | context [mapM (yc_temp m p) ?l] =>
        destruct (mapM (yc_temp m p) l) as [yc|e1] eqn:Eyc;
        [ cbn [bind] in H;
          destruct (mapM (dyc_dx_temp m p) l) as [dy|e2] eqn:Edy;
          [ discriminate | ]
        | ]
    end.
    + cbn [bind] in H. injection H as <-.
      apply mapM_raise_inv in Edy as (a & _ & Ha).
      exact (dyc_dx_temp_raise _ _ _ Ha).
    + cbn [bind] in H. injection H as <-.
      apply mapM_raise_inv in Eyc as (a & _ & Ha).
      exact (yc_temp_raise _ _ _ Ha).
Qed.

End Coordinates.

(** ** The whole function *)

Section Series.

Import PyStr Numpy Airfoil.
Open Scope R_scope.

Lemma series_bind (d : designation) (chord : R) (num_points : Z) :
  naca_four_digit_series d chord num_points =
    bind (designation_params d chord)
         (fun mpt => let '(m, p, t) := mpt in coordinates m p t chord num_points).
Proof.
  unfold naca_four_digit_series, designation_params.
  destruct (check_input d) as [s|e]; [|reflexivity].
  cbn [bind]. destruct (naca_params s chord) as [[[m p] t]|e]; reflexivity.
Qed.

Lemma linspace_range (chord : R) (num : Z) (xs : list R) (x : R) :
  0 <= chord -> linspace 0 chord num = Ok xs -> In x xs -> 0 <= x <= chord.
Proof.
  intros Hc Hl Hx.
  destruct (Z.lt_ge_cases num 0) as [Hn|Hn].
  { rewrite linspace_negative in Hl by exact Hn. discriminate. }
  destruct (Z.eq_dec num 0) as [->|H0].
  { rewrite linspace_empty in Hl. injection Hl as <-. destruct Hx. }
  destruct (Z.eq_dec num 1) as [->|H1].
  { rewrite linspace_single in Hl. injection Hl as <-.
    destruct Hx as [<-|[]]. lra. }
  rewrite linspace_stations in Hl by lia. injection Hl as <-.
  apply (@stations_range chord num); [lia | exact Hc | exact Hx].
Qed.

Lemma linspace_total (chord : R) (num : Z) :
  (0 <= num)%Z -> exists xs, linspace 0 chord num = Ok xs /\ List.length xs = Z.to_nat num.
Proof.
  intros H. unfold linspace.
  destruct (Z.ltb_spec num 0) as [Hn|Hn]; [lia|].
  eexists. split; [reflexivity|].
  assert (Hs : forall (l : list R) v, List.length (set_last l v) = List.length l).
  { induction l as [|a [|b l] IH]; intros v; try reflexivity.
    change (S (List.length (set_last (b :: l) v)) = S (List.length (b :: l))).
    rewrite IH. reflexivity. }
  unfold arange.
  destruct (1 <? num)%Z; destruct (0 <? num - 1)%Z;
    rewrite ?Hs, !length_map, length_seq; reflexivity.
Qed.

(** With a non-negative chord the only zero divisor is [(1 - p) ** 2]. *)
Lemma divisor_nonzero_nonneg (p x : R) :
  0 <= x -> p <> 1 -> divisor_nonzero p x.
Proof. intros Hx Hp. split; [intros L; lra | intros _; exact Hp]. Qed.

Lemma coordinates_total (m p t chord : R) (num_points : Z) :
  0 <= chord -> p <> 1 -> (0 <= num_points)%Z ->
  exists xs,
    linspace 0 chord num_points = Ok xs
    /\ coordinates m p t chord num_points = Ok (map (station_row m p t) xs).
Proof.
  intros Hc Hp Hn.
  destruct (@linspace_total chord num_points Hn) as (xs & Hl & _).
  exists xs. split; [exact Hl|].
  apply coordinates_ok; [exact Hl|].
  intros x Hx. apply divisor_nonzero_nonneg; [|exact Hp].
  exact (proj1 (@linspace_range chord num_points xs x Hc Hl Hx)).
Qed.

Lemma yt_at_zero (t : R) : yt_at t 0 = 0.
Proof. unfold yt_at. rewrite sqrt_0. unfold Rdiv. ring. Qed.

Lemma arctan2_zero_one : arctan2 0 1 = 0.
Proof.
  unfold arctan2. destruct (Rlt_dec 0 1) as [_|N]; [|exfalso; lra].
  replace (0 / 1) with 0 by (unfold Rdiv; ring). exact atan_0.
Qed.

(** The row of the station [x = 0]: both surfaces start on the camber line. *)
Lemma station_row_leading (m p t : R) :
  station_row m p t 0 = Row 0 (yc_value m p 0) 0 (yc_value m p 0).
Proof.
  unfold station_row. cbv zeta. rewrite yt_at_zero. f_equal; ring.
Qed.

(** Rows of an airfoil without camber. *)
Lemma station_row_uncambered (p t x : R) :
  station_row 0 p t x = Row x (yt_at t x) x (- yt_at t x).
Proof.
  unfold station_row, yc_value, dyc_dx_value. cbv zeta.
  assert (E : forall a b : R, 0 / a * b = 0) by (intros; unfold Rdiv; ring).
  destruct (Rlt_dec x p); rewrite !E, arctan2_zero_one, sin_0, cos_0; f_equal; ring.
Qed.

Lemma stations_head (chord : R) (num : Z) :
  (1 <= num)%Z -> exists rest, stations chord num = 0 :: rest.
Proof.
  intros H. unfold stations.
  destruct (Z.to_nat num) as [|k] eqn:Ek; [lia|].
  cbn [seq map]. eexists. f_equal. simpl. ring.
Qed.

Lemma linspace_head (chord : R) (num : Z) (xs : list R) :
  (1 <= num)%Z -> linspace 0 chord num = Ok xs -> exists rest, xs = 0 :: rest.
Proof.
  intros Hn Hl.
  destruct (Z.eq_dec num 1) as [->|H1].
  - rewrite linspace_single in Hl. injection Hl as <-. exists []. reflexivity.
  - rewrite linspace_stations in Hl by lia. injection Hl as <-.
    apply stations_head. exact Hn.
Qed.

End Series.

(** ** Integer designations *)

Section IntegerDesignation.

Import PyStr Numpy Airfoil.
Open Scope R_scope.

Lemma index_head (c : ascii) (r : string) :
  index (String c r) 0 = String c EmptyString.
Proof. unfold index. destruct r; reflexivity. Qed.

Lemma designation_params_int_accept (n : Z) (chord : R) :
  (1000 <= n <= 9999)%Z ->
  designation_params (IntNumber n) chord =
    Ok (IZR (n / 1000) / 100 * chord,
        IZR (n / 100 mod 10) / 10 * chord,
        IZR (10 * (n / 10 mod 10) + n mod 10) / 100 * chord).
Proof.
  intros H. unfold designation_params.
  rewrite check_input_ok by (apply len_str_four; left; exact H).
  cbn [bind normalize]. rewrite str_four_digits by exact H.
  apply naca_params_four_digits; unfold is_digit_value.
  - split; [apply Z.div_pos | apply Z.lt_succ_r, Z.div_lt_upper_bound]; lia.
  - pose proof (Z.mod_pos_bound (n / 100) 10). lia.
  - pose proof (Z.mod_pos_bound (n / 10) 10). lia.
  - pose proof (Z.mod_pos_bound n 10). lia.
Qed.

Lemma designation_params_int_negative (n : Z) (chord : R) :
  (-999 <= n <= -100)%Z ->
  designation_params (IntNumber n) chord = Raise ValueError.
Proof.
  intros H. unfold designation_params.
  rewrite check_input_ok by (apply len_str_four; right; exact H).
  cbn [bind normalize]. rewrite str_negative by lia.
  unfold naca_params. rewrite index_head. reflexivity.
Qed.

Lemma designation_params_int_short (n : Z) (chord : R) :
  len (str n) <> 4%Z ->
  designation_params (IntNumber n) chord = Raise (AssertionError (msg (str n))).
Proof.
  intros H. unfold designation_params.
  rewrite check_input_raise by exact H. reflexivity.
Qed.

End IntegerDesignation.

(** * The claims of the specification *)

Section Claims.

Import PyStr Numpy Airfoil.
Open Scope R_scope.

(** C4.  A designation whose string form does not have exactly four
    characters makes the generator fail with the assertion error of the
    input check; the error message carries the offending length, and the
    failure is the same whatever the chord and the number of points are:
    nothing is computed before it. *)
Theorem invalid_length_rejected
    (naca_number : designation) (chord : R) (num_points : Z) :
  len (normalize naca_number) <> 4%Z ->
  naca_four_digit_series naca_number chord num_points =
    Raise (AssertionError
      ("ERROR: Input naca number must be 4 digits. "
         ++ str (len (normalize naca_number)) ++ " digits given.")).
Proof.
  intros H. unfold naca_four_digit_series.
  rewrite check_input_raise by exact H. reflexivity.
Qed.

Lemma invalid_length_rejected_witness :
  naca_four_digit_series (StrNumber "123") 1 50 =
    Raise (AssertionError "ERROR: Input naca number must be 4 digits. 3 digits given.")
  /\ naca_four_digit_series (StrNumber "12345") (-1) (-7) =
    Raise (AssertionError "ERROR: Input naca number must be 4 digits. 5 digits given.").
Proof.
  split.
  - apply (@invalid_length_rejected (StrNumber "123") 1 50).
    vm_compute. discriminate.
  - apply (@invalid_length_rejected (StrNumber "12345") (-1) (-7)).
    vm_compute. discriminate.
Defined.

(** C7.  For a designation made of the digits d1 d2 d3 d4 the generator
    derives maxCamber = d1/100 * chord, camberPosition = d2/10 * chord and
    maxThickness = (10*d3 + d4)/100 * chord, and these scaled values are
    the ones the coordinates are computed from. *)
Theorem parameters_scaled_by_chord
    (d1 d2 d3 d4 : Z) (chord : R) (num_points : Z) :
  is_digit_value d1 -> is_digit_value d2 -> is_digit_value d3 -> is_digit_value d4 ->
  let m := IZR d1 / 100 * chord in
  let p := IZR d2 / 10 * chord in
  let t := IZR (10 * d3 + d4) / 100 * chord in
  naca_params (four_digits d1 d2 d3 d4) chord = Ok (m, p, t)
  /\ naca_four_digit_series (StrNumber (four_digits d1 d2 d3 d4)) chord num_points
     = coordinates m p t chord num_points.
Proof.
  intros H1 H2 H3 H4. cbv zeta. split.
  - apply naca_params_four_digits; assumption.
  - apply series_four_digits; assumption.
Qed.

Lemma parameters_scaled_by_chord_witness :
  naca_params "2317" 3 = Ok (2 / 100 * 3, 3 / 10 * 3, 17 / 100 * 3).
Proof.
  apply (@parameters_scaled_by_chord 2 3 1 7 3 50);
    unfold is_digit_value; lia.
Defined.

(** C10.  An integer designation is turned into its decimal string without
    zero padding.  Every integer from 0 to 999 fails the length check with
    fewer than four characters; an integer passes the check and yields
    parameters exactly when it lies between 1000 and 9999; the first digit
    of an accepted integer is never 0, so an airfoil without camber needs a
    string such as "0012". *)
Theorem integer_designation_not_padded :
  normalize (IntNumber 12) = "12"%string
  /\ (forall (n : Z) (chord : R) (num_points : Z),
        (0 <= n <= 999)%Z ->
        (len (normalize (IntNumber n)) < 4)%Z
        /\ naca_four_digit_series (IntNumber n) chord num_points =
             Raise (AssertionError (msg (str n))))
  /\ (forall (n : Z) (chord : R),
        (exists mpt, designation_params (IntNumber n) chord = Ok mpt)
        <-> (1000 <= n <= 9999)%Z)
  /\ (forall (n : Z) (chord m p t : R),
        designation_params (IntNumber n) chord = Ok (m, p, t) ->
        exists d1, (1 <= d1 <= 9)%Z /\ m = IZR d1 / 100 * chord)
  /\ (forall chord : R,
        designation_params (StrNumber "0012") chord =
          Ok (0 / 100 * chord, 0 / 10 * chord, 12 / 100 * chord)).
Proof.
  assert (Hacc : forall (n : Z) (chord : R) mpt,
            designation_params (IntNumber n) chord = Ok mpt -> (1000 <= n <= 9999)%Z).
  { intros n chord mpt H.
    destruct (Z.eq_dec (len (str n)) 4) as [E|E].
    - apply len_str_four in E. destruct E as [E|E]; [exact E|].
      rewrite designation_params_int_negative in H by exact E. discriminate.
    - rewrite designation_params_int_short in H by exact E. discriminate. }
  split; [reflexivity|]. split; [|split; [|split]].
  - intros n chord num_points H.
    pose proof (len_str_small H) as Hl. cbn [normalize]. split; [lia|].
    rewrite series_bind, designation_params_int_short by lia. reflexivity.
  - intros n chord. split.
    + intros [mpt H]. exact (Hacc n chord mpt H).
    + intros H. eexists. apply designation_params_int_accept. exact H.
  - intros n chord m p t H.
    pose proof (Hacc n chord _ H) as Hn.
    rewrite designation_params_int_accept in H by exact Hn.
    injection H as <- _ _.
    exists (n / 1000)%Z. split; [|reflexivity].
    split; [apply Z.div_le_lower_bound | apply Z.lt_succ_r, Z.div_lt_upper_bound]; lia.
  - intros chord.
    change "0012"%string with (four_digits 0 0 1 2).
    unfold designation_params. rewrite check_input_ok by reflexivity.
    cbn [bind normalize].
    apply naca_params_four_digits; unfold is_digit_value; lia.
Qed.

Lemma integer_designation_not_padded_witness :
  naca_four_digit_series (IntNumber 12) 1 50 =
    Raise (AssertionError "ERROR: Input naca number must be 4 digits. 2 digits given.")
  /\ (exists mpt, designation_params (IntNumber 2317) 1 = Ok mpt).
Proof.
  destruct integer_designation_not_padded as (_ & Hsmall & Hacc & _).
  split.
  - apply (Hsmall 12%Z 1 50%Z). lia.
  - apply (Hacc 2317%Z 1). lia.
Defined.

(** C9.  With a second digit 0 and a positive chord, camberPosition is 0
    and no station is below it: the guard [x_station < p] is false at every
    station, both loops take the branch that divides by [(1 - p) ** 2 = 1],
    and the generator never raises [ZeroDivisionError]; for a non-negative
    number of points it returns. *)
Theorem camber_division_safe_when_p_zero
    (d1 d3 d4 : Z) (chord : R) (num_points : Z) :
  is_digit_value d1 -> is_digit_value d3 -> is_digit_value d4 ->
  0 < chord ->
  let m := IZR d1 / 100 * chord in
  let p := IZR 0 / 10 * chord in
  let series :=
    naca_four_digit_series (StrNumber (four_digits d1 0 d3 d4)) chord num_points in
  (forall xs x,
      linspace 0 chord num_points = Ok xs -> In x xs ->
      ~ x < p
      /\ yc_temp m p x = Ok (m / (1 - p) ^ 2 * ((1 - 2 * p) + 2 * p * x - x ^ 2))
      /\ dyc_dx_temp m p x = Ok (m / (1 - p) ^ 2 * (2 * p - 2 * x)))
  /\ series <> Raise ZeroDivisionError
  /\ ((0 <= num_points)%Z -> exists out, series = Ok out).
Proof.
  intros H1 H3 H4 Hc. cbv zeta.
  assert (Hp : IZR 0 / 10 * chord = 0) by (unfold Rdiv; ring).
  rewrite series_four_digits by (assumption || (unfold is_digit_value; lia)).
  rewrite Hp.
  assert (Hok : (0 <= num_points)%Z ->
                exists out, coordinates (IZR d1 / 100 * chord) 0
                              (IZR (10 * d3 + d4) / 100 * chord) chord num_points = Ok out).
  { intros Hn.
    destruct (@coordinates_total (IZR d1 / 100 * chord) 0
                (IZR (10 * d3 + d4) / 100 * chord) chord num_points) as (xs & _ & E);
      [lra | lra | exact Hn |].
    eexists. exact E. }
  split; [|split].
  - intros xs x Hl Hx.
    assert (Hx0 : 0 <= x <= chord) by (eapply linspace_range; [lra | exact Hl | exact Hx]).
    assert (Hd : (1 - 0) ^ 2 <> 0) by (intros E; apply (proj1 (sq_zero_iff _)) in E; lra).
    split; [lra|].
    unfold yc_temp, dyc_dx_temp.
    destruct (Rlt_dec x 0) as [L|_]; [lra|].
    rewrite !pydiv_ok by exact Hd. split; reflexivity.
  - destruct (Z.lt_ge_cases num_points 0) as [Hn|Hn].
    + unfold coordinates. rewrite linspace_negative by exact Hn. discriminate.
    + destruct (Hok Hn) as [out E]. rewrite E. discriminate.
  - exact Hok.
Qed.

Lemma camber_division_safe_when_p_zero_witness :
  naca_four_digit_series (StrNumber "0012") 1 50 <> Raise ZeroDivisionError
  /\ exists out, naca_four_digit_series (StrNumber "0012") 1 50 = Ok out.
Proof.
  destruct (@camber_division_safe_when_p_zero 0 1 2 1 50) as (_ & Hne & Hex);
    try (unfold is_digit_value; lia); [lra|].
  split; [exact Hne | apply Hex; lia].
Defined.

(** C1, as the code has it.  The generator has no special case for a zero
    camber position: with a second digit 0 it evaluates the second formula
    of each loop literally, which gives yc = m * (1 - x^2) and
    dyc/dx = -2 * m * x at every station x of [0, chord].  The camber line is
    flat (yc = 0 and dyc/dx = 0) when the first digit is 0 as well. *)
Theorem flat_camber_when_uncambered
    (d1 d3 d4 : Z) (chord x : R) :
  is_digit_value d1 -> is_digit_value d3 -> is_digit_value d4 ->
  0 <= x <= chord ->
  let m := IZR d1 / 100 * chord in
  let p := IZR 0 / 10 * chord in
  let t := IZR (10 * d3 + d4) / 100 * chord in
  naca_params (four_digits d1 0 d3 d4) chord = Ok (m, p, t)
  /\ yc_temp m p x = Ok (m * (1 - x ^ 2))
  /\ dyc_dx_temp m p x = Ok (- 2 * m * x)
  /\ (d1 = 0%Z -> yc_temp m p x = Ok 0 /\ dyc_dx_temp m p x = Ok 0).
Proof.
  intros H1 H3 H4 Hx. cbv zeta.
  assert (Hp : IZR 0 / 10 * chord = 0) by (unfold Rdiv; ring).
  assert (Hd : (1 - 0) ^ 2 <> 0) by (intros E; apply (proj1 (sq_zero_iff _)) in E; lra).
  assert (Hyc : yc_temp (IZR d1 / 100 * chord) 0 x = Ok (IZR d1 / 100 * chord * (1 - x ^ 2))).
  { unfold yc_temp. destruct (Rlt_dec x 0) as [L|_]; [lra|].
    rewrite pydiv_ok by exact Hd. cbn [bind]. f_equal. field. }
  assert (Hdy : dyc_dx_temp (IZR d1 / 100 * chord) 0 x = Ok (- 2 * (IZR d1 / 100 * chord) * x)).
  { unfold dyc_dx_temp. destruct (Rlt_dec x 0) as [L|_]; [lra|].
    rewrite pydiv_ok by exact Hd. cbn [bind]. f_equal. field. }
  split; [apply naca_params_four_digits; assumption || (unfold is_digit_value; lia)|].
  rewrite Hp. split; [exact Hyc|]. split; [exact Hdy|].
  intros ->. rewrite Hyc, Hdy. split; f_equal; unfold Rdiv; ring.
Qed.

Lemma flat_camber_when_uncambered_witness :
  yc_temp (0 / 100 * 1) (0 / 10 * 1) (1 / 2) = Ok 0
  /\ dyc_dx_temp (0 / 100 * 1) (0 / 10 * 1) (1 / 2) = Ok 0.
Proof.
  destruct (@flat_camber_when_uncambered 0 1 2 1 (1 / 2)) as (_ & _ & _ & H);
    try (unfold is_digit_value; lia); [lra|].
  apply H. reflexivity.
Defined.

(** C1 as stated fails: designation "2012" has second digit 0, and at the
    station x = 0 of a unit chord the camber ordinate is 0.02, not 0; at
    x = 1 the slope is -0.04, not 0. *)
Lemma flat_camber_counterexample :
  exists m p t,
    naca_params "2012" 1 = Ok (m, p, t)
    /\ p = 0
    /\ yc_temp m p 0 = Ok (2 / 100) /\ yc_temp m p 0 <> Ok 0
    /\ dyc_dx_temp m p 1 = Ok (- 4 / 100) /\ dyc_dx_temp m p 1 <> Ok 0.
Proof.
  exists (2 / 100 * 1), (0 / 10 * 1), (12 / 100 * 1).
  assert (Hp : 0 / 10 * 1 = 0) by (unfold Rdiv; ring).
  assert (Hd : (1 - 0) ^ 2 <> 0) by (intros E; apply (proj1 (sq_zero_iff _)) in E; lra).
  assert (Hyc : yc_temp (2 / 100 * 1) (0 / 10 * 1) 0 = Ok (2 / 100)).
  { rewrite Hp. unfold yc_temp. destruct (Rlt_dec 0 0) as [L|_]; [lra|].
    rewrite pydiv_ok by exact Hd. cbn [bind]. f_equal. field. }
  assert (Hdy : dyc_dx_temp (2 / 100 * 1) (0 / 10 * 1) 1 = Ok (- 4 / 100)).
  { rewrite Hp. unfold dyc_dx_temp. destruct (Rlt_dec 1 0) as [L|_]; [lra|].
    rewrite pydiv_ok by exact Hd. cbn [bind]. f_equal. field. }
  split; [|split; [exact Hp|]].
  - change "2012"%string with (four_digits 2 0 1 2).
    apply naca_params_four_digits; unfold is_digit_value; lia.
  - rewrite Hyc, Hdy. repeat split; try reflexivity;
      intros E; injection E as E; lra.
Qed.

(** C5, as the code has it.  The number of points is not validated: with
    0 points the generator returns the empty surface, with 1 point the
    single row of the station x = 0, and only a negative number fails, with
    the [ValueError] of [np.linspace]. *)
Theorem point_count_not_validated
    (d1 d2 d3 d4 : Z) (chord : R) :
  is_digit_value d1 -> is_digit_value d2 -> is_digit_value d3 -> is_digit_value d4 ->
  let m := IZR d1 / 100 * chord in
  let p := IZR d2 / 10 * chord in
  let t := IZR (10 * d3 + d4) / 100 * chord in
  let series := naca_four_digit_series (StrNumber (four_digits d1 d2 d3 d4)) chord in
  series 0%Z = Ok []
  /\ series 1%Z = Ok [station_row m p t 0]
  /\ (forall n, (n < 0)%Z -> series n = Raise ValueError).
Proof.
  intros H1 H2 H3 H4. cbv zeta. split; [|split].
  - rewrite series_four_digits by assumption. reflexivity.
  - rewrite series_four_digits by assumption.
    rewrite (@coordinates_ok _ _ _ _ _ [0] (linspace_single chord)); [reflexivity|].
    intros x [<-|[]]. split; intros L; lra.
  - intros n Hn. rewrite series_four_digits by assumption.
    unfold coordinates. rewrite linspace_negative by exact Hn. reflexivity.
Qed.

Lemma point_count_not_validated_witness :
  naca_four_digit_series (StrNumber "2317") 1 0 = Ok []
  /\ naca_four_digit_series (StrNumber "2317") 1 (-1) = Raise ValueError.
Proof.
  destruct (@point_count_not_validated 2 3 1 7 1) as (H0 & _ & Hneg);
    try (unfold is_digit_value; lia).
  split; [exact H0 | apply Hneg; lia].
Defined.

(** C5 as stated fails: with 0 or 1 point the generator returns a surface
    instead of failing. *)
Lemma point_count_counterexample :
  naca_four_digit_series (StrNumber "0012") 1 0 = Ok []
  /\ naca_four_digit_series (StrNumber "0012") 1 1 = Ok [Row 0 0 0 0].
Proof.
  change "0012"%string with (four_digits 0 0 1 2).
  rewrite !series_four_digits by (unfold is_digit_value; lia).
  split; [reflexivity|].
  replace (IZR 0 / 100 * 1) with 0 by (unfold Rdiv; ring).
  rewrite (@coordinates_ok _ _ _ _ _ [0] (linspace_single 1)).
  - cbn [map]. rewrite station_row_uncambered, yt_at_zero.
    do 2 f_equal. f_equal. ring.
  - intros x [<-|[]]. split; intros L; lra.
Qed.

(** C2, as the code has it.  When the generator returns, its first row is
    the point (0, 0) on both surfaces provided the camber ordinate of the
    station x = 0 is 0: that is, when the first digit is 0, or when the
    second digit is not 0 and the chord is positive.  With a non-negative
    chord it returns unless camberPosition is exactly 1. *)
Theorem leading_edge_pinches
    (d1 d2 d3 d4 : Z) (chord : R) (num_points : Z) :
  is_digit_value d1 -> is_digit_value d2 -> is_digit_value d3 -> is_digit_value d4 ->
  (2 <= num_points)%Z ->
  d1 = 0%Z \/ (d2 <> 0%Z /\ 0 < chord) ->
  let series :=
    naca_four_digit_series (StrNumber (four_digits d1 d2 d3 d4)) chord num_points in
  (forall out, series = Ok out -> hd_error out = Some (Row 0 0 0 0))
  /\ (0 <= chord -> IZR d2 / 10 * chord <> 1 -> exists out, series = Ok out).
Proof.
  intros H1 H2 H3 H4 Hn Hcase. cbv zeta.
  rewrite series_four_digits by assumption.
  split.
  - intros out Hout.
    apply coordinates_inv in Hout as (xs & Hl & _ & ->).
    destruct (@linspace_head chord num_points xs) as [rest ->]; [lia | exact Hl |].
    cbn [map hd_error]. rewrite station_row_leading.
    assert (E : yc_value (IZR d1 / 100 * chord) (IZR d2 / 10 * chord) 0 = 0).
    { unfold yc_value. destruct Hcase as [->|[Hd2 Hc]].
      - destruct (Rlt_dec 0 (IZR d2 / 10 * chord)); unfold Rdiv; ring.
      - assert (1 <= IZR d2) by (apply IZR_le; unfold is_digit_value in H2; lia).
        destruct (Rlt_dec 0 (IZR d2 / 10 * chord)) as [_|N].
        + unfold Rdiv. ring.
        + exfalso. apply N. nra. }
    rewrite E. reflexivity.
  - intros Hc Hp.
    destruct (@coordinates_total (IZR d1 / 100 * chord) (IZR d2 / 10 * chord)
                (IZR (10 * d3 + d4) / 100 * chord) chord num_points) as (xs & _ & E);
      [exact Hc | exact Hp | lia |].
    eexists. exact E.
Qed.

Lemma leading_edge_pinches_witness :
  exists out,
    naca_four_digit_series (StrNumber "2317") 1 50 = Ok out
    /\ hd_error out = Some (Row 0 0 0 0).
Proof.
  destruct (@leading_edge_pinches 2 3 1 7 1 50) as [Hall Hex];
    try (unfold is_digit_value; lia).
  - right. split; [lia | lra].
  - destruct Hex as [out Hout]; [lra | lra |].
    exists out. split; [exact Hout | exact (Hall out Hout)].
Defined.

(** C2 as stated fails: for the designation "2012" with a unit chord and two
    points the first row has yUpper = yLower = 0.02. *)
Lemma leading_edge_counterexample :
  exists r rest,
    naca_four_digit_series (StrNumber "2012") 1 2 = Ok (r :: rest)
    /\ y_upper r = 2 / 100 /\ y_lower r = 2 / 100 /\ y_upper r <> 0.
Proof.
  change "2012"%string with (four_digits 2 0 1 2).
  rewrite series_four_digits by (unfold is_digit_value; lia).
  destruct (@coordinates_total (IZR 2 / 100 * 1) (IZR 0 / 10 * 1)
              (IZR (10 * 1 + 2) / 100 * 1) 1 2) as (xs & Hl & E);
    [lra | lra | lia |].
  destruct (@linspace_head 1 2 xs) as [rest ->]; [lia | exact Hl |].
  rewrite E. cbn [map]. rewrite station_row_leading.
  assert (Hy : yc_value (2 / 100 * 1) (0 / 10 * 1) 0 = 2 / 100).
  { unfold yc_value. destruct (Rlt_dec 0 (0 / 10 * 1)) as [L|_]; [lra | field]. }
  do 2 eexists. split; [reflexivity|].
  cbn [y_upper y_lower]. rewrite Hy. repeat split; lra.
Qed.

(** C6.  For the designation "0012", any chord and at least two points,
    every row of the output satisfies yUpper = -yLower and xUpper = xLower;
    with a non-negative chord the output exists and has one row per point. *)
Theorem symmetric_0012_mirror (chord : R) (num_points : Z) :
  (2 <= num_points)%Z ->
  let series := naca_four_digit_series (StrNumber "0012") chord num_points in
  (forall out, series = Ok out -> Forall mirror_symmetric out)
  /\ (0 <= chord ->
      exists out, series = Ok out /\ List.length out = Z.to_nat num_points).
Proof.
  intros Hn. cbv zeta.
  change "0012"%string with (four_digits 0 0 1 2).
  rewrite series_four_digits by (unfold is_digit_value; lia).
  replace (IZR 0 / 100 * chord) with 0 by (unfold Rdiv; ring).
  split.
  - intros out Hout.
    apply coordinates_inv in Hout as (xs & _ & _ & ->).
    apply Forall_forall. intros r Hr.
    apply in_map_iff in Hr as (x & <- & _).
    rewrite station_row_uncambered. unfold mirror_symmetric.
    cbn [x_upper y_upper x_lower y_lower]. split; [ring | reflexivity].
  - intros Hc.
    destruct (@coordinates_total 0 (IZR 0 / 10 * chord)
                (IZR (10 * 1 + 2) / 100 * chord) chord num_points) as (xs & Hl & E);
      [exact Hc | lra | lia |].
    destruct (@linspace_total chord num_points) as (xs' & Hl' & Hlen); [lia|].
    rewrite Hl in Hl'. injection Hl' as <-.
    eexists. split; [exact E|]. rewrite length_map. exact Hlen.
Qed.

Lemma symmetric_0012_mirror_witness :
  exists out,
    naca_four_digit_series (StrNumber "0012") 3 5 = Ok out
    /\ List.length out = 5%nat
    /\ Forall mirror_symmetric out.
Proof.
  destruct (@symmetric_0012_mirror 3 5) as [Hall Hex]; [lia|].
  destruct Hex as (out & Hout & Hlen); [lra|].
  exists out. split; [exact Hout|]. split; [exact Hlen | exact (Hall out Hout)].
Defined.

(** C8, as the code has it.  For a valid designation, a non-negative chord
    and at least two points, the stations are the num_points values
    i * chord / (num_points - 1): they start at 0, end at chord and never
    decrease.  Whenever the generator returns, its output has exactly
    num_points rows, row i being computed from station i; it returns when
    camberPosition is not 1. *)
Theorem stations_uniform_rows_counted
    (d1 d2 d3 d4 : Z) (chord : R) (num_points : Z) :
  is_digit_value d1 -> is_digit_value d2 -> is_digit_value d3 -> is_digit_value d4 ->
  0 <= chord -> (2 <= num_points)%Z ->
  let p := IZR d2 / 10 * chord in
  let xs := stations chord num_points in
  let series :=
    naca_four_digit_series (StrNumber (four_digits d1 d2 d3 d4)) chord num_points in
  linspace 0 chord num_points = Ok xs
  /\ List.length xs = Z.to_nat num_points
  /\ (forall i, (i < Z.to_nat num_points)%nat ->
        nth_error xs i = Some (INR i * (chord / IZR (num_points - 1))))
  /\ nth_error xs 0 = Some 0
  /\ nth_error xs (Z.to_nat num_points - 1) = Some chord
  /\ (forall i j xi xj, (i <= j)%nat ->
        nth_error xs i = Some xi -> nth_error xs j = Some xj -> xi <= xj)
  /\ (forall out, series = Ok out ->
        List.length out = Z.to_nat num_points
        /\ out = map (station_row (IZR d1 / 100 * chord) p
                        (IZR (10 * d3 + d4) / 100 * chord)) xs)
  /\ (p <> 1 -> exists out, series = Ok out).
Proof.
  intros H1 H2 H3 H4 Hc Hn. cbv zeta.
  rewrite series_four_digits by assumption.
  pose proof (linspace_stations chord Hn) as Hl.
  assert (Hd : 0 < IZR (num_points - 1)) by (apply IZR_lt; lia).
  assert (Hstep : 0 <= chord / IZR (num_points - 1)).
  { apply Rmult_le_pos; [exact Hc | left; apply Rinv_0_lt_compat; exact Hd]. }
  assert (Hlast : nth_error (stations chord num_points) (Z.to_nat num_points - 1)
                  = Some chord).
  { rewrite stations_nth by lia. f_equal.
    rewrite INR_IZR_INZ.
    replace (Z.of_nat (Z.to_nat num_points - 1)) with (num_points - 1)%Z by lia.
    field. lra. }
  split; [exact Hl|]. split; [apply stations_length|].
  split; [intros i Hi; apply stations_nth; exact Hi|].
  split; [rewrite stations_nth by lia; f_equal; simpl; ring|].
  split; [exact Hlast|].
  split; [|split].
  - intros i j xi xj Hij Hi Hj.
    assert (Hjn : (j < Z.to_nat num_points)%nat).
    { rewrite <- (stations_length chord num_points).
      apply nth_error_Some. rewrite Hj. discriminate. }
    rewrite stations_nth in Hi, Hj by lia.
    injection Hi as <-. injection Hj as <-.
    apply Rmult_le_compat_r; [exact Hstep | apply le_INR; exact Hij].
  - intros out Hout.
    apply coordinates_inv in Hout as (xs & Hl' & _ & ->).
    rewrite Hl in Hl'. injection Hl' as <-.
    split; [rewrite length_map; apply stations_length | reflexivity].
  - intros Hp.
    destruct (@coordinates_total (IZR d1 / 100 * chord) (IZR d2 / 10 * chord)
                (IZR (10 * d3 + d4) / 100 * chord) chord num_points) as (xs & _ & E);
      [exact Hc | exact Hp | lia |].
    eexists. exact E.
Qed.

Lemma stations_uniform_rows_counted_witness :
  linspace 0 1 50 = Ok (stations 1 50)
  /\ List.length (stations 1 50) = 50%nat
  /\ exists out,
       naca_four_digit_series (StrNumber "2317") 1 50 = Ok out
       /\ List.length out = 50%nat.
Proof.
  destruct (@stations_uniform_rows_counted 2 3 1 7 1 50)
    as (Hl & Hlen & _ & _ & _ & _ & Hout & Hex);
    try (unfold is_digit_value; lia); [lra|].
  split; [exact Hl|]. split; [exact Hlen|].
  destruct Hex as [out E]; [lra|].
  exists out. split; [exact E | exact (proj1 (Hout out E))].
Defined.

(** C8 as stated fails.  For the designation "2512" with chord 2 the camber
    position is 1 and the generator raises [ZeroDivisionError]: there is no
    output of num_points rows.  For "2412" with chord -1 it returns two rows,
    computed from the stations 0 and -1, which are in decreasing order. *)
Lemma stations_uniform_counterexample :
  naca_four_digit_series (StrNumber "2512") 2 2 = Raise ZeroDivisionError
  /\ exists out x0 x1,
       naca_four_digit_series (StrNumber "2412") (-1) 2 = Ok out
       /\ List.length out = 2%nat
       /\ linspace 0 (-1) 2 = Ok [x0; x1] /\ x0 = 0 /\ x1 = -1 /\ x1 < x0.
Proof.
  split.
  - change "2512"%string with (four_digits 2 5 1 2).
    rewrite series_four_digits by (unfold is_digit_value; lia).
    apply (@coordinates_zero_division _ _ _ _ _ (stations 2 2) (INR 1 * (2 / IZR (2 - 1)))).
    + apply linspace_stations. lia.
    + right. left. reflexivity.
    + intros [_ Ha]. simpl in Ha. apply Ha; lra.
  - change "2412"%string with (four_digits 2 4 1 2).
    rewrite series_four_digits by (unfold is_digit_value; lia).
    rewrite (@coordinates_ok _ _ _ _ _ (stations (-1) 2)).
    + exists (map (station_row (IZR 2 / 100 * -1) (IZR 4 / 10 * -1)
                     (IZR (10 * 1 + 2) / 100 * -1)) (stations (-1) 2)).
      exists (INR 0 * (-1 / IZR (2 - 1))), (INR 1 * (-1 / IZR (2 - 1))).
      split; [reflexivity|]. split; [reflexivity|].
      split; [apply linspace_stations; lia|].
      simpl. repeat split; lra.
    + apply linspace_stations. lia.
    + intros x _. split; intros _; lra.
Qed.

(** C3 on the code.  For the designation "0012" and two points, the last
    row has yUpper = 0.00126 with chord 1 and a negative yUpper with
    chord 2: the output for the doubled chord is not twice the output for
    the chord. *)
Theorem chord_doubling_not_scaled :
  exists out1 out2 r1 r2,
    naca_four_digit_series (StrNumber "0012") 1 2 = Ok out1
    /\ naca_four_digit_series (StrNumber "0012") (2 * 1) 2 = Ok out2
    /\ nth_error out1 1 = Some r1 /\ nth_error out2 1 = Some r2
    /\ y_upper r1 = 0.00126 /\ y_upper r2 < 0
    /\ out2 <> map (scale_row 2) out1.
Proof.
  change "0012"%string with (four_digits 0 0 1 2).
  rewrite !series_four_digits by (unfold is_digit_value; lia).
  assert (Hrows : forall c, 0 <= c ->
            coordinates (IZR 0 / 100 * c) (IZR 0 / 10 * c) (IZR (10 * 1 + 2) / 100 * c) c 2
            = Ok [station_row 0 (IZR 0 / 10 * c) (12 / 100 * c) 0;
                  station_row 0 (IZR 0 / 10 * c) (12 / 100 * c) c]).
  { intros c Hc.
    rewrite (@coordinates_ok _ _ _ _ _ (stations c 2)).
    - replace (IZR 0 / 100 * c) with 0 by (unfold Rdiv; ring).
      change (stations c 2) with [INR 0 * (c / IZR (2 - 1)); INR 1 * (c / IZR (2 - 1))].
      cbn [map].
      replace (INR 0 * (c / IZR (2 - 1))) with 0 by (simpl; unfold Rdiv; ring).
      replace (INR 1 * (c / IZR (2 - 1))) with c by (simpl; field).
      reflexivity.
    - apply linspace_stations. lia.
    - intros x Hx. apply divisor_nonzero_nonneg; [|lra].
      apply (@stations_range c 2); [lia | exact Hc | exact Hx]. }
  rewrite (Hrows 1), (Hrows (2 * 1)) by lra.
  assert (Hs2 : 0 <= sqrt 2 <= 2).
  { split; [apply sqrt_pos|].
    rewrite <- (sqrt_square 2) at 2 by lra. apply sqrt_le_1; lra. }
  assert (Hy1 : yt_at (12 / 100 * 1) 1 = 0.00126).
  { unfold yt_at. rewrite sqrt_1. lra. }
  assert (Hy2 : yt_at (12 / 100 * (2 * 1)) (2 * 1) < 0).
  { unfold yt_at. replace (2 * 1) with 2 by ring.
    set (s := sqrt 2) in *. lra. }
  do 4 eexists.
  split; [reflexivity|]. split; [reflexivity|].
  split; [reflexivity|]. split; [reflexivity|].
  rewrite !station_row_uncambered. cbn [y_upper].
  split; [exact Hy1|]. split; [exact Hy2|].
  intros E. cbn [map scale_row x_upper y_upper x_lower y_lower] in E.
  apply (f_equal (fun l => option_map y_upper (nth_error l 1))) in E.
  cbn [nth_error option_map y_upper] in E. injection E as E. lra.
Qed.

End Claims.

(** * Further properties of the generator *)

Section Outcomes.

Import PyStr Numpy Airfoil.
Open Scope R_scope.



Lemma int_char (c : ascii) :
  int (String c EmptyString) =
    if is_digit c then Ok (digit_val c) else Raise ValueError.
Proof. destruct c as [[] [] [] [] [] [] [] []]; reflexivity. Qed.

(** A four-character designation whose first or second character is not a
    decimal digit makes [int()] fail: the generator raises [ValueError],
    whatever the chord and the number of points. *)
Theorem nondigit_designation_value_error
    (c1 c2 c3 c4 : ascii) (chord : R) (num_points : Z) :
  is_digit c1 = false \/ is_digit c2 = false ->
  naca_four_digit_series
    (StrNumber (String c1 (String c2 (String c3 (String c4 EmptyString)))))
    chord num_points = Raise ValueError.
Proof.
  intros H. unfold naca_four_digit_series.
  rewrite check_input_ok by reflexivity. cbn [bind normalize].
  unfold naca_params. rewrite index_head.
  change (index (String c1 (String c2 (String c3 (String c4 EmptyString)))) 1)
    with (String c2 EmptyString).
  rewrite !int_char.
  destruct (is_digit c1); [|reflexivity].
  destruct (is_digit c2); [|reflexivity].
  destruct H; discriminate.
Qed.

Lemma nondigit_designation_value_error_witness :
  naca_four_digit_series (StrNumber "2a12") 1 50 = Raise ValueError.
Proof.
  apply (@nondigit_designation_value_error "2" "a" "1" "2" 1 50).
  right. reflexivity.
Defined.

(** An integer designation between 1000 and 9999 is decoded digit by digit:
    maxCamber is (n div 1000)/100 * chord, camberPosition is
    ((n div 100) mod 10)/10 * chord and maxThickness is (n mod 100)/100 * chord. *)
Theorem integer_designation_parameters (n : Z) (chord : R) (num_points : Z) :
  (1000 <= n <= 9999)%Z ->
  naca_four_digit_series (IntNumber n) chord num_points =
    coordinates (IZR (n / 1000) / 100 * chord)
                (IZR (n / 100 mod 10) / 10 * chord)
                (IZR (n mod 100) / 100 * chord) chord num_points.
Proof.
  intros H. rewrite series_bind, designation_params_int_accept by exact H.
  cbn [bind].
  replace (10 * (n / 10 mod 10) + n mod 10)%Z with (n mod 100)%Z
    by (Z.div_mod_to_equations; lia).
  reflexivity.
Qed.

Lemma integer_designation_parameters_witness :
  naca_four_digit_series (IntNumber 2317) 1 50 =
    coordinates (2 / 100 * 1) (3 / 10 * 1) (17 / 100 * 1) 1 50.
Proof.
  apply (@integer_designation_parameters 2317 1 50). lia.
Defined.

(** A negative integer with three digits has a four-character string, so
    it passes the length check, and then fails on its minus sign with
    [ValueError], whatever the chord and the number of points. *)
Theorem negative_integer_value_error (n : Z) (chord : R) (num_points : Z) :
  (-999 <= n <= -100)%Z ->
  len (normalize (IntNumber n)) = 4%Z
  /\ naca_four_digit_series (IntNumber n) chord num_points = Raise ValueError.
Proof.
  intros H. split.
  - apply len_str_four. right. exact H.
  - rewrite series_bind, designation_params_int_negative by exact H. reflexivity.
Qed.

Lemma negative_integer_value_error_witness :
  naca_four_digit_series (IntNumber (-123)) 1 50 = Raise ValueError.
Proof.
  apply (@negative_integer_value_error (-123) 1 50). lia.
Defined.

End Outcomes.

Section Geometry.

Import PyStr Numpy Airfoil.
Open Scope R_scope.

(** At the station x = camberPosition the loop takes the second formula
    (the test [x_station < p] is false), the camber ordinate is exactly
    maxCamber and the camber slope is 0, for any chord, provided
    camberPosition is not 1. *)
Theorem camber_peak (m p : R) :
  p <> 1 -> yc_temp m p p = Ok m /\ dyc_dx_temp m p p = Ok 0.
Proof.
  intros Hp.
  assert (Hd : (1 - p) ^ 2 <> 0).
  { intros E. apply (proj1 (sq_zero_iff _)) in E. lra. }
  unfold yc_temp, dyc_dx_temp.
  destruct (Rlt_dec p p) as [L|_]; [lra|].
  rewrite !pydiv_ok by exact Hd. cbn [bind].
  split; f_equal; field; lra.
Qed.

Lemma camber_peak_witness :
  yc_temp (2 / 100) (4 / 10) (4 / 10) = Ok (2 / 100)
  /\ dyc_dx_temp (2 / 100) (4 / 10) (4 / 10) = Ok 0.
Proof. apply (@camber_peak (2 / 100) (4 / 10)). lra. Defined.

Lemma digit_IZR (d : Z) : is_digit_value d -> 0 <= IZR d <= 9.
Proof. intros [H0 H9]. split; apply IZR_le; assumption. Qed.

Lemma scaled_fraction_bounds (m q : R) : 0 <= m -> 0 <= q <= 1 -> 0 <= m * q <= m.
Proof. intros Hm Hq. nra. Qed.

(** With a unit chord the camber ordinate of every station of [0, 1] lies
    between 0 and maxCamber. *)
Theorem camber_bounded_unit_chord (d1 d2 : Z) (x : R) :
  is_digit_value d1 -> is_digit_value d2 -> 0 <= x <= 1 ->
  let m := IZR d1 / 100 * 1 in
  let p := IZR d2 / 10 * 1 in
  exists y, yc_temp m p x = Ok y /\ 0 <= y <= m.
Proof.
  intros H1 H2 Hx. cbv zeta.
  apply digit_IZR in H1, H2.
  set (m := IZR d1 / 100 * 1). set (p := IZR d2 / 10 * 1).
  assert (Hm : 0 <= m) by (unfold m; lra).
  assert (Hp : 0 <= p <= 9 / 10) by (unfold p; lra).
  rewrite yc_temp_ok by (apply divisor_nonzero_nonneg; lra).
  eexists. split; [reflexivity|].
  unfold yc_value. destruct (Rlt_dec x p) as [L|L].
  - assert (Hpp : 0 < p ^ 2) by nra.
    replace (m / p ^ 2 * (2 * p * x - x ^ 2))
      with (m * ((2 * p * x - x ^ 2) / p ^ 2)) by (field; lra).
    apply scaled_fraction_bounds; [exact Hm|]. split.
    + apply Rmult_le_pos; [nra | left; apply Rinv_0_lt_compat; exact Hpp].
    + apply Rmult_le_reg_r with (p ^ 2); [exact Hpp|].
      replace ((2 * p * x - x ^ 2) / p ^ 2 * p ^ 2) with (2 * p * x - x ^ 2)
        by (field; lra).
      nra.
  - assert (Hpp : 0 < (1 - p) ^ 2) by nra.
    replace (m / (1 - p) ^ 2 * (1 - 2 * p + 2 * p * x - x ^ 2))
      with (m * ((1 - 2 * p + 2 * p * x - x ^ 2) / (1 - p) ^ 2)) by (field; lra).
    apply scaled_fraction_bounds; [exact Hm|]. split.
    + apply Rmult_le_pos; [nra | left; apply Rinv_0_lt_compat; exact Hpp].
    + apply Rmult_le_reg_r with ((1 - p) ^ 2); [exact Hpp|].
      replace ((1 - 2 * p + 2 * p * x - x ^ 2) / (1 - p) ^ 2 * (1 - p) ^ 2)
        with (1 - 2 * p + 2 * p * x - x ^ 2) by (field; lra).
      nra.
Qed.

Lemma camber_bounded_unit_chord_witness :
  exists y, yc_temp (2 / 100 * 1) (4 / 10 * 1) (1 / 2) = Ok y /\ 0 <= y <= 2 / 100 * 1.
Proof.
  apply (@camber_bounded_unit_chord 2 4 (1 / 2));
    try (unfold is_digit_value; lia). lra.
Defined.

(** The thickness polynomial is not negative between 0 and 1. *)
Lemma thickness_polynomial_nonneg (s : R) :
  0 <= s <= 1 ->
  0 <= 0.2969 * s - 0.1260 * (s * s) - 0.3516 * (s * s) ^ 2
       + 0.2843 * (s * s) ^ 3 - 0.1015 * (s * s) ^ 4.
Proof.
  intros Hs.
  replace (0.2969 * s - 0.1260 * (s * s) - 0.3516 * (s * s) ^ 2
           + 0.2843 * (s * s) ^ 3 - 0.1015 * (s * s) ^ 4)
    with (s * (0.0021 + (1 - s) *
                 (0.2948 + 0.1688 * s + 0.1688 * s ^ 2 - 0.1828 * s ^ 3
                  - 0.1828 * s ^ 4 + 0.1015 * s ^ 5 + 0.1015 * s ^ 6)))
    by lra.
  assert (H2 : 0 <= s ^ 2 <= s) by nra.
  assert (H3 : 0 <= s ^ 3 <= s ^ 2) by nra.
  assert (H4 : 0 <= s ^ 4 <= s ^ 3) by nra.
  assert (H5 : 0 <= s ^ 5 <= s ^ 4) by nra.
  assert (H6 : 0 <= s ^ 6 <= s ^ 5) by nra.
  apply Rmult_le_pos; [lra|].
  apply Rplus_le_le_0_compat; [lra|].
  apply Rmult_le_pos; lra.
Qed.

Lemma yt_at_nonneg (t x : R) : 0 <= t -> 0 <= x <= 1 -> 0 <= yt_at t x.
Proof.
  intros Ht Hx. unfold yt_at.
  assert (Hs : 0 <= sqrt x <= 1).
  { split; [apply sqrt_pos|]. rewrite <- sqrt_1. apply sqrt_le_1; lra. }
  pose proof (thickness_polynomial_nonneg Hs) as Hpoly.
  rewrite (sqrt_sqrt x) in Hpoly by lra.
  apply Rmult_le_pos; [lra | exact Hpoly].
Qed.

Lemma cos_arctan2_one (d : R) : 0 < cos (arctan2 d 1) <= 1.
Proof.
  unfold arctan2. destruct (Rlt_dec 0 1) as [_|N]; [|exfalso; lra].
  pose proof (atan_bound (d / 1)) as [Hl Hu].
  split; [apply cos_gt_0; lra | apply COS_bound].
Qed.


End Geometry.

Section Surfaces.

Import PyStr Numpy Airfoil.
Open Scope R_scope.

Lemma stations_last (chord : R) (num : Z) :
  (2 <= num)%Z -> nth_error (stations chord num) (Z.to_nat num - 1) = Some chord.
Proof.
  intros Hn. rewrite stations_nth by lia. f_equal.
  assert (Hd : 0 < IZR (num - 1)) by (apply IZR_lt; lia).
  rewrite INR_IZR_INZ.
  replace (Z.of_nat (Z.to_nat num - 1)) with (num - 1)%Z by lia.
  field. lra.
Qed.


Lemma map_constant {A B : Type} (f : A -> B) (c : B) (l : list A) :
  (forall a, In a l -> f a = c) -> map f l = repeat c (List.length l).
Proof.
  induction l as [|a l IH]; intros H; [reflexivity|].
  cbn [map List.length repeat]. rewrite (H a (or_introl eq_refl)). f_equal.
  apply IH. intros b Hb. apply H. right. exact Hb.
Qed.

Lemma unit_chord_params (d2 d3 d4 : Z) :
  is_digit_value d2 -> is_digit_value d3 -> is_digit_value d4 ->
  0 <= IZR d2 / 10 * 1 <= 9 / 10 /\ 0 <= IZR (10 * d3 + d4) / 100 * 1.
Proof.
  intros H2 H3 H4. apply digit_IZR in H2.
  assert (0 <= IZR (10 * d3 + d4)) by (apply IZR_le; unfold is_digit_value in *; lia).
  lra.
Qed.

(** With a unit chord the generator returns for every valid designation
    and every non-negative number of points, and in every row the upper
    surface is not below the lower one. *)
Theorem unit_chord_surfaces_ordered (d1 d2 d3 d4 : Z) (num_points : Z) :
  is_digit_value d1 -> is_digit_value d2 -> is_digit_value d3 -> is_digit_value d4 ->
  (0 <= num_points)%Z ->
  exists out,
    naca_four_digit_series (StrNumber (four_digits d1 d2 d3 d4)) 1 num_points = Ok out
    /\ Forall (fun r => y_lower r <= y_upper r) out.
Proof.
  intros H1 H2 H3 H4 Hn.
  rewrite series_four_digits by assumption.
  destruct (unit_chord_params H2 H3 H4) as [Hp Ht].
  destruct (@coordinates_total (IZR d1 / 100 * 1) (IZR d2 / 10 * 1)
              (IZR (10 * d3 + d4) / 100 * 1) 1 num_points) as (xs & Hl & E);
    [lra | lra | exact Hn |].
  eexists. split; [exact E|].
  apply Forall_forall. intros r Hr.
  apply in_map_iff in Hr as (x & <- & Hx).
  assert (Hx01 : 0 <= x <= 1) by (eapply linspace_range; [lra | exact Hl | exact Hx]).
  unfold station_row. cbn [y_upper y_lower].
  pose proof (yt_at_nonneg Ht Hx01) as Hyt.
  pose proof (cos_arctan2_one
                (dyc_dx_value (IZR d1 / 100 * 1) (IZR d2 / 10 * 1) x)) as [Hc _].
  nra.
Qed.

Lemma unit_chord_surfaces_ordered_witness :
  exists out,
    naca_four_digit_series (StrNumber "2317") 1 50 = Ok out
    /\ Forall (fun r => y_lower r <= y_upper r) out.
Proof.
  apply (@unit_chord_surfaces_ordered 2 3 1 7 50);
    unfold is_digit_value; lia.
Defined.

(** With a unit chord and at least two points the last row is the trailing
    edge: the camber ordinate is 0 there, so yUpper = -yLower, the two
    abscissas are centred on x = 1, and the half gap yUpper lies between 0
    and 0.0105 * maxThickness. *)
Theorem trailing_edge_unit_chord (d1 d2 d3 d4 : Z) (num_points : Z) :
  is_digit_value d1 -> is_digit_value d2 -> is_digit_value d3 -> is_digit_value d4 ->
  (2 <= num_points)%Z ->
  let t := IZR (10 * d3 + d4) / 100 * 1 in
  exists out r,
    naca_four_digit_series (StrNumber (four_digits d1 d2 d3 d4)) 1 num_points = Ok out
    /\ nth_error out (Z.to_nat num_points - 1) = Some r
    /\ y_upper r = - y_lower r
    /\ 0 <= y_upper r <= 0.0105 * t
    /\ x_upper r + x_lower r = 2.
Proof.
  intros H1 H2 H3 H4 Hn. cbv zeta.
  rewrite series_four_digits by assumption.
  destruct (unit_chord_params H2 H3 H4) as [Hp Ht].
  set (m := IZR d1 / 100 * 1) in *. set (p := IZR d2 / 10 * 1) in *.
  set (t := IZR (10 * d3 + d4) / 100 * 1) in *.
  rewrite (@coordinates_ok m p t 1 num_points (stations 1 num_points)).
  - exists (map (station_row m p t) (stations 1 num_points)), (station_row m p t 1).
    split; [reflexivity|].
    split; [rewrite nth_error_map, stations_last by exact Hn; reflexivity|].
    assert (Hyc : yc_value m p 1 = 0).
    { unfold yc_value. destruct (Rlt_dec 1 p) as [L|_]; [lra|]. unfold Rdiv. ring. }
    assert (Hyt : yt_at t 1 = 0.0105 * t).
    { unfold yt_at. rewrite sqrt_1. lra. }
    unfold station_row. cbn [x_upper y_upper x_lower y_lower].
    rewrite Hyc, Hyt.
    pose proof (cos_arctan2_one (dyc_dx_value m p 1)) as [Hc0 Hc1].
    split; [ring|]. split; [|ring]. nra.
  - apply linspace_stations. exact Hn.
  - intros x Hx. apply divisor_nonzero_nonneg; [|lra].
    apply (@stations_range 1 num_points); [exact Hn | lra | exact Hx].
Qed.

Lemma trailing_edge_unit_chord_witness :
  exists out r,
    naca_four_digit_series (StrNumber "2317") 1 50 = Ok out
    /\ nth_error out 49 = Some r
    /\ y_upper r = - y_lower r
    /\ 0 <= y_upper r <= 0.0105 * (17 / 100 * 1)
    /\ x_upper r + x_lower r = 2.
Proof.
  apply (@trailing_edge_unit_chord 2 3 1 7 50);
    unfold is_digit_value; lia.
Defined.



End Surfaces.

Section EdgeCases.

Import PyStr Numpy Airfoil.
Open Scope R_scope.



(** A chord of 0 never fails: for every valid designation the output is
    num_points copies of the row (0, 0, 0, 0). *)
Theorem zero_chord_degenerate (d1 d2 d3 d4 : Z) (num_points : Z) :
  is_digit_value d1 -> is_digit_value d2 -> is_digit_value d3 -> is_digit_value d4 ->
  (0 <= num_points)%Z ->
  naca_four_digit_series (StrNumber (four_digits d1 d2 d3 d4)) 0 num_points =
    Ok (repeat (Row 0 0 0 0) (Z.to_nat num_points)).
Proof.
  intros H1 H2 H3 H4 Hn.
  rewrite series_four_digits by assumption.
  replace (IZR d1 / 100 * 0) with 0 by (unfold Rdiv; ring).
  replace (IZR d2 / 10 * 0) with 0 by (unfold Rdiv; ring).
  replace (IZR (10 * d3 + d4) / 100 * 0) with 0 by (unfold Rdiv; ring).
  destruct (@coordinates_total 0 0 0 0 num_points) as (xs & Hl & E);
    [lra | lra | exact Hn |].
  destruct (@linspace_total 0 num_points Hn) as (xs' & Hl' & Hlen).
  rewrite Hl in Hl'. injection Hl' as <-.
  rewrite E, <- Hlen. f_equal.
  apply map_constant. intros x Hx.
  assert (Hx0 : 0 <= x <= 0) by (eapply linspace_range; [lra | exact Hl | exact Hx]).
  replace x with 0 by lra.
  rewrite station_row_uncambered, yt_at_zero. f_equal. ring.
Qed.

Lemma zero_chord_degenerate_witness :
  naca_four_digit_series (StrNumber "2317") 0 3 =
    Ok [Row 0 0 0 0; Row 0 0 0 0; Row 0 0 0 0].
Proof.
  apply (@zero_chord_degenerate 2 3 1 7 3); unfold is_digit_value; lia.
Defined.

(** With a second digit 0, a negative chord and at least two points the
    generator raises [ZeroDivisionError]: the last station is below
    camberPosition = 0, and the first formula divides by [p ** 2 = 0]. *)
Theorem negative_chord_zero_division
    (d1 d3 d4 : Z) (chord : R) (num_points : Z) :
  is_digit_value d1 -> is_digit_value d3 -> is_digit_value d4 ->
  chord < 0 -> (2 <= num_points)%Z ->
  naca_four_digit_series (StrNumber (four_digits d1 0 d3 d4)) chord num_points =
    Raise ZeroDivisionError.
Proof.
  intros H1 H3 H4 Hc Hn.
  rewrite series_four_digits by (assumption || (unfold is_digit_value; lia)).
  replace (IZR 0 / 10 * chord) with 0 by (unfold Rdiv; ring).
  apply (@coordinates_zero_division _ _ _ _ _ (stations chord num_points) chord).
  - apply linspace_stations. exact Hn.
  - eapply nth_error_In. apply stations_last. exact Hn.
  - intros [Hf _]. apply (Hf Hc). reflexivity.
Qed.

Lemma negative_chord_zero_division_witness :
  naca_four_digit_series (StrNumber "0012") (-1) 50 = Raise ZeroDivisionError.
Proof.
  apply (@negative_chord_zero_division 0 1 2 (-1) 50);
    try (unfold is_digit_value; lia). lra.
Defined.



(** Multiplying the chord by k multiplies maxCamber, camberPosition,
    maxThickness and every station by k. *)
Theorem chord_scales_parameters_and_stations
    (d1 d2 d3 d4 : Z) (k chord : R) (num_points : Z) :
  is_digit_value d1 -> is_digit_value d2 -> is_digit_value d3 -> is_digit_value d4 ->
  (2 <= num_points)%Z ->
  let m := IZR d1 / 100 * chord in
  let p := IZR d2 / 10 * chord in
  let t := IZR (10 * d3 + d4) / 100 * chord in
  naca_params (four_digits d1 d2 d3 d4) chord = Ok (m, p, t)
  /\ naca_params (four_digits d1 d2 d3 d4) (k * chord) = Ok (k * m, k * p, k * t)
  /\ exists xs,
       linspace 0 chord num_points = Ok xs
       /\ linspace 0 (k * chord) num_points = Ok (map (Rmult k) xs).
Proof.
  intros H1 H2 H3 H4 Hn. cbv zeta.
  rewrite !naca_params_four_digits by assumption.
  split; [reflexivity|]. split.
  - do 2 f_equal; [f_equal|]; unfold Rdiv; ring.
  - exists (stations chord num_points).
    rewrite !linspace_stations by exact Hn.
    split; [reflexivity|]. f_equal.
    unfold stations. rewrite map_map. apply map_ext.
    intros i. unfold Rdiv. ring.
Qed.

Lemma chord_scales_parameters_and_stations_witness :
  naca_params "2317" (2 * 1) = Ok (2 * (2 / 100 * 1), 2 * (3 / 10 * 1), 2 * (17 / 100 * 1)).
Proof.
  apply (@chord_scales_parameters_and_stations 2 3 1 7 2 1 50);
    unfold is_digit_value; lia.
Defined.

End EdgeCases.
